(** * sendMailHandler: a shallow embedding of [src/sendMailHandler.ts]

    The handler built by [createSendMailHandler] takes an API Gateway
    event, extracts a contact-form payload from it (JSON or multipart),
    validates it against a fixed schema, optionally verifies a reCAPTCHA
    token, hands a message to the mail transport and answers with a
    response envelope.

    The embedding keeps the shape of the TypeScript source:
    - JavaScript values are an inductive type [JSValue]; objects keep their
      properties in insertion order;
    - the request headers are a finite map from header names to values;
    - everything the handler does to the outside world (console output, the
      HTTPS request to the verification endpoint, the call to the mail
      transport) is recorded, in order, in a trace of [Event]s threaded
      through a small state-and-exception monad [M];
    - the libraries the handler calls but does not define ([JSON.parse],
      the multipart parser, the HTTPS client, the mail transport, the email
      format of the schema validator) are the fields of one record of
      collaborators, over which every definition is parameterised. *)

From Stdlib Require Import ZArith String Ascii List Bool Lia.
From stdpp Require Import base option list strings gmap.

Import ListNotations.
Set Warnings "-register-all".
Local Open Scope Z_scope.
Local Open Scope string_scope.
Local Open Scope list_scope.

(** ** Strings *)

(** The quotation mark and the reverse solidus, by character code. *)
Definition dquote : string := String "034"%char EmptyString.
Definition backslash : string := String "092"%char EmptyString.

(** [String.prototype.includes]: [needle] occurs somewhere in [hay].
    Strings are sequences of code units; the comparison is exact, so it
    is case-sensitive. *)
Fixpoint includes (needle hay : string) : bool :=
  String.prefix needle hay ||
  match hay with
  | EmptyString => false
  | String _ rest => includes needle rest
  end.

(** A JavaScript string is falsy exactly when it is empty. *)
Definition string_truthy (s : string) : bool :=
  match s with EmptyString => false | String _ _ => true end.

(** ** JSON text of strings and of flat records *)

Definition hex_digit (n : N) : ascii :=
  match n with
  | 0%N => "0" | 1%N => "1" | 2%N => "2" | 3%N => "3" | 4%N => "4"
  | 5%N => "5" | 6%N => "6" | 7%N => "7" | 8%N => "8" | 9%N => "9"
  | 10%N => "a" | 11%N => "b" | 12%N => "c" | 13%N => "d" | 14%N => "e"
  | _ => "f"
  end%char.

(** The escape [JSON.stringify] writes for one character of a string:
    the two-character escapes for the quotation mark, the reverse solidus
    and the five named control characters, [\u00XX] for the other control
    characters below U+0020, and the character itself otherwise.  Strings
    are taken as UTF-8 text, so a byte from 0x80 up belongs to a
    well-formed character and is copied. *)
Definition JSON_escape_char (c : ascii) : string :=
  let n := N_of_ascii c in
  if (n =? 34)%N then backslash +:+ dquote
  else if (n =? 92)%N then backslash +:+ backslash
  else if (n =? 8)%N then backslash +:+ "b"
  else if (n =? 12)%N then backslash +:+ "f"
  else if (n =? 10)%N then backslash +:+ "n"
  else if (n =? 13)%N then backslash +:+ "r"
  else if (n =? 9)%N then backslash +:+ "t"
  else if (n <? 32)%N then
    backslash +:+ "u00" +:+
    String (hex_digit (n / 16)) (String (hex_digit (n mod 16)) EmptyString)
  else String c EmptyString.

Fixpoint JSON_escape (s : string) : string :=
  match s with
  | EmptyString => EmptyString
  | String c rest => JSON_escape_char c +:+ JSON_escape rest
  end.

(** [JSON.stringify(s)] for a string [s]. *)
Definition JSON_quote (s : string) : string :=
  dquote +:+ JSON_escape s +:+ dquote.

Fixpoint JSON_members (fields : list (string * string)) : string :=
  match fields with
  | [] => EmptyString
  | [(k, v)] => JSON_quote k +:+ ":" +:+ JSON_quote v
  | (k, v) :: rest =>
      JSON_quote k +:+ ":" +:+ JSON_quote v +:+ "," +:+ JSON_members rest
  end.

(** [JSON.stringify(o)] for an object [o] whose own properties, in
    order, are [fields], all of them strings. *)
Definition JSON_stringify_record (fields : list (string * string)) : string :=
  "{" +:+ JSON_members fields +:+ "}".

(** ** Errors and response envelopes *)

(** A thrown [Error] object: its constructor name and its [message]. *)
Record JSError := mkError { err_name : string; err_message : string }.

(** [new Error(msg)] *)
Definition new_Error (msg : string) : JSError := mkError "Error" msg.

Record Response := mkResponse {
  statusCode : Z;
  headers : list (string * string);
  body : string
}.

Definition response_headers : list (string * string) :=
  [("Content-Type", "application/json");
   ("Access-Control-Allow-Origin", "*")].

(** A parameter with a default value: [None] is an omitted (or
    [undefined]) argument. *)
Definition with_default {A} (dflt : A) (arg : option A) : A :=
  match arg with Some a => a | None => dflt end.

(** [function buildSuccessResponse(message, statusCode = 200)] *)
Definition buildSuccessResponse (message : string) (code : option Z) : Response :=
  {| statusCode := with_default 200 code;
     headers := response_headers;
     body := JSON_stringify_record [("message", message)] |}.

(** [function buildErrorResponse(err, message, statusCode = 500)] *)
Definition buildErrorResponse (err : JSError) (message : string)
    (code : option Z) : Response :=
  {| statusCode := with_default 500 code;
     headers := response_headers;
     body := JSON_stringify_record
               [("message", message); ("error", err_message err)] |}.

(** ** JavaScript values *)

(** The values the handler sees: what [JSON.parse] can return, the
    [undefined] of a missing property, and the [Buffer]s of uploaded
    files.  An object keeps its own properties in insertion order.
    Numbers are limited to the integers: the program only ever tests a
    number for truthiness. *)
Inductive JSValue :=
| JUndefined
| JNull
| JBool (b : bool)
| JNum (n : Z)
| JStr (s : string)
| JBuffer (bytes : list Byte.byte)
| JArr (items : list JSValue)
| JObj (props : list (string * JSValue)).

(** ToBoolean *)
Definition truthy (v : JSValue) : bool :=
  match v with
  | JUndefined | JNull => false
  | JBool b => b
  | JNum n => negb (n =? 0)%Z
  | JStr s => string_truthy s
  | JBuffer _ | JArr _ | JObj _ => true
  end.

Fixpoint lookup_prop (k : string) (props : list (string * JSValue))
  : option JSValue :=
  match props with
  | [] => None
  | (k', v) :: rest => if String.eqb k k' then Some v else lookup_prop k rest
  end.

(** [o[k]] for an object whose own properties are [props]: a missing
    property reads as [undefined].  None of the names this program reads
    is defined on [Object.prototype]. *)
Definition get_own (props : list (string * JSValue)) (k : string) : JSValue :=
  match lookup_prop k props with Some v => v | None => JUndefined end.

(** [o[k] = v]: an existing property keeps its place, a new one goes
    last. *)
Fixpoint set_prop (k : string) (v : JSValue) (props : list (string * JSValue))
  : list (string * JSValue) :=
  match props with
  | [] => [(k, v)]
  | (k', v') :: rest =>
      if String.eqb k k' then (k, v) :: rest else (k', v') :: set_prop k v rest
  end.

(** ** Configuration, request, outgoing mail *)

(** [interface SendMailConfig]; an optional member is an [option]. *)
Record SendMailConfig := mkConfig {
  region : option string;
  skipRecaptcha : option bool;
  disableSend : option bool;
  senderEmail : string;
  recipientEmail : string;
  recaptchaSecret : option string
}.

(** The members of [APIGatewayEvent] the handler reads.  A header is
    looked up under the exact key it was stored with. *)
Record APIGatewayEvent := mkEvent {
  ev_headers : gmap string string;
  ev_body : option string;
  isBase64Encoded : bool
}.

(** The [SendMailOptions] object the handler builds.  [subject], [text]
    and [replyTo] are whatever the payload holds; [attachments] is absent
    unless the handler assigns it. *)
Record SendMailOptions := mkMail {
  from : string;
  to : string;
  subject : JSValue;
  text : JSValue;
  replyTo : JSValue;
  attachments : option (list JSValue)
}.

(** ** Effects *)

(** What the handler does to the outside world. *)
Inductive Event :=
| ConsoleWarn (msg : string)
| ConsoleError (err : JSError)
| HttpsRequest (hostname path postData : string)
| SendMail (sesRegion : string) (mail : SendMailOptions).

(** How a computation ends: with a value, with an exception thrown to the
    enclosing [try] (a rejected promise that is awaited counts as one), or
    with an exception thrown out of an event listener, which no [try] of
    the handler encloses. *)
Inductive Res (A : Type) :=
| Ret (a : A)
| Throw (e : JSError)
| Uncaught (e : JSError).
Arguments Ret {A} a.
Arguments Throw {A} e.
Arguments Uncaught {A} e.

(** A computation: how it ends and the events it emitted, oldest first. *)
Definition M (A : Type) : Type := Res A * list Event.

Definition ret {A} (a : A) : M A := (Ret a, []).
Definition throw {A} (e : JSError) : M A := (Throw e, []).
Definition crash {A} (e : JSError) : M A := (Uncaught e, []).
Definition emit (ev : Event) : M unit := (Ret tt, [ev]).

Definition bind {A B} (m : M A) (k : A -> M B) : M B :=
  match m with
  | (Ret a, t) => let '(r, t') := k a in (r, t ++ t')
  | (Throw e, t) => (Throw e, t)
  | (Uncaught e, t) => (Uncaught e, t)
  end.

(** [try { m } catch (err) { h err }] *)
Definition try_catch {A} (m : M A) (h : JSError -> M A) : M A :=
  match m with
  | (Throw e, t) => let '(r, t') := h e in (r, t ++ t')
  | other => other
  end.

Notation "'let*' x ':=' c 'in' k" := (bind c (fun x => k))
  (at level 10, x name, c at level 100, k at level 200, only parsing).
Notation "c ';;;' k" := (bind c (fun _ => k))
  (at level 100, k at level 200, right associativity, only parsing).

Definition result {A} (m : M A) : Res A := fst m.
Definition trace {A} (m : M A) : list Event := snd m.

Fixpoint mapM {A B} (f : A -> M B) (l : list A) : M (list B) :=
  match l with
  | [] => ret []
  | x :: rest =>
      let* y := f x in
      let* ys := mapM f rest in
      ret (y :: ys)
  end.

Definition TypeError (msg : string) : JSError := mkError "TypeError" msg.

(** [v[k]] (or [v.k]) for any value [v].  Reading a property of [null] or
    [undefined] throws; a primitive, an array or a buffer has none of the
    properties this program reads ([recaptcha], [subject], [message],
    [email], [files], [filename], [content], [success]). *)
Definition get_prop (v : JSValue) (k : string) : M JSValue :=
  match v with
  | JObj props => ret (get_own props k)
  | JNull =>
      throw (TypeError ("Cannot read properties of null (reading '" +:+ k +:+ "')"))
  | JUndefined =>
      throw (TypeError ("Cannot read properties of undefined (reading '" +:+ k +:+ "')"))
  | _ => ret JUndefined
  end.

(** ** The schema validator *)

(** The schema literal of [createSendMailHandler]. *)
Record PropertySchema := mkProp {
  prop_type : string;
  prop_format : option string
}.

Record ObjectSchema := mkSchema {
  schema_type : string;
  properties : list (string * PropertySchema);
  required : list string
}.

Definition schema : ObjectSchema :=
  {| schema_type := "object";
     properties :=
       [("name", mkProp "string" None);
        ("email", mkProp "string" (Some "email"));
        ("subject", mkProp "string" None);
        ("message", mkProp "string" None);
        ("recaptcha", mkProp "string" None)];
     required := ["name"; "email"; "subject"; "message"; "recaptcha"] |}.

(** The members of Ajv's [ErrorObject] that the handler can reach. *)
Record ErrorObject := mkErrorObject {
  keyword : string;
  instancePath : string;
  message : option string
}.

(** What a call of the compiled [validate] leaves behind: its return
    value and [validate.errors] ([None] is [null]). *)
Record Validation := mkValidation {
  valid : bool;
  errors : option (list ErrorObject)
}.

(** Ajv's data-type test for the two types the schema names: an
    object is anything of [typeof] object that is neither [null] nor an
    array. *)
Definition has_type (ty : string) (data : JSValue) : bool :=
  match data with
  | JObj _ | JBuffer _ => String.eqb ty "object"
  | JStr _ => String.eqb ty "string"
  | _ => false
  end.

(** The properties a validator can read off a value; a buffer defines
    none of the names of the schema. *)
Definition props_of (data : JSValue) : list (string * JSValue) :=
  match data with JObj props => props | _ => [] end.

Definition type_error (path ty : string) : ErrorObject :=
  mkErrorObject "type" path (Some ("must be " +:+ ty)).

Definition required_error (missing : string) : ErrorObject :=
  mkErrorObject "required" EmptyString
    (Some ("must have required property '" +:+ missing +:+ "'")).

Definition format_error (path fmt : string) : ErrorObject :=
  mkErrorObject "format" path
    (Some ("must match format " +:+ dquote +:+ fmt +:+ dquote)).

(** The first name of [names] that [props] does not define. *)
Fixpoint first_missing (names : list string) (props : list (string * JSValue))
  : option string :=
  match names with
  | [] => None
  | k :: rest =>
      match get_own props k with
      | JUndefined => Some k
      | _ => first_missing rest props
      end
  end.

Section Validator.
(** The formats known to the validator ([ajv-formats]): whether the
    string [s] matches the format named [fmt]. *)
Variable format_ok : string -> string -> bool.

(** A property schema against the value of the property: [type]
    first, then [format], which applies to strings only. *)
Definition check_property (k : string) (ps : PropertySchema) (v : JSValue)
  : option ErrorObject :=
  if negb (has_type (prop_type ps) v) then
    Some (type_error ("/" +:+ k) (prop_type ps))
  else
    match prop_format ps, v with
    | Some fmt, JStr s =>
        if format_ok fmt s then None else Some (format_error ("/" +:+ k) fmt)
    | _, _ => None
    end.

(** The [properties] keyword: the declared properties in order, each
    checked only when the data defines it, stopping at the first
    error. *)
Fixpoint check_properties (decls : list (string * PropertySchema))
    (props : list (string * JSValue)) : option ErrorObject :=
  match decls with
  | [] => None
  | (k, ps) :: rest =>
      match get_own props k with
      | JUndefined => check_properties rest props
      | v =>
          match check_property k ps v with
          | Some e => Some e
          | None => check_properties rest props
          end
      end
  end.

(** The first error of [data] against an object schema, as Ajv
    evaluates it without [allErrors]: the [type] of the data, then
    [required] (the first missing name in the order of the array), then
    [properties]. *)
Definition first_error (sch : ObjectSchema) (data : JSValue)
  : option ErrorObject :=
  if negb (has_type (schema_type sch) data) then
    Some (type_error EmptyString (schema_type sch))
  else
    match first_missing (required sch) (props_of data) with
    | Some k => Some (required_error k)
    | None => check_properties (properties sch) (props_of data)
    end.

(** [ajv.compile(sch)] *)
Definition compile (sch : ObjectSchema) (data : JSValue) : Validation :=
  match first_error sch data with
  | None => mkValidation true None
  | Some e => mkValidation false (Some [e])
  end.
End Validator.

(** ** Collaborators *)

Inductive Encoding := base64 | binary.

(** What the multipart parser reports about a file part. *)
Record FileInfo := mkFileInfo {
  filename : JSValue;
  encoding : string;
  mimeType : JSValue
}.

(** A part of the form as the parser hands it to the listeners of
    [extractMultipart]: a plain field with its name and value, or a file
    with its [info] and the chunks its stream delivered before it ended. *)
Inductive Part :=
| FieldPart (fieldname value : string)
| FilePart (info : FileInfo) (chunks : list (list Byte.byte)).

(** How the parser finishes: it emits [close], or it fails (it throws
    when constructed, or emits [error]). *)
Inductive ParserEnd :=
| Close
| ParserError (err : JSError).

(** The answer to the HTTPS request: a transport error, or the full text
    of the response.  These are the two ways the promise of
    [verifyRecaptchaToken] settles; a request that never does (the source
    sets no timeout) leaves the call pending and is outside this type, so
    the properties below are about calls whose collaborators settle. *)
Inductive HttpsOutcome :=
| RequestError (err : JSError)
| ResponseText (data : string).

(** The code the handler calls and the repository does not define. *)
Record Collaborators := mkCollaborators {
  (** [JSON.parse]: the value, or the [SyntaxError] it throws *)
  JSON_parse : string -> JSError + JSValue;
  (** the string formats of [ajv-formats] *)
  format_ok : string -> string -> bool;
  (** [busboy]: from the content-type header and what is written to the
      parser (nothing, or a text in an encoding) to the parts in the
      order their listeners run, and the end *)
  busboy : option string -> option (string * Encoding) -> list Part * ParserEnd;
  (** [querystring.stringify] of an object given by its properties *)
  querystring_stringify : list (string * JSValue) -> string;
  (** [https.request] to a host and path with a request body *)
  https_request : string -> string -> string -> HttpsOutcome;
  (** [transporter.sendMail] of the SES transport of a region: [None]
      when the mail is accepted, the error otherwise *)
  sendMail : string -> SendMailOptions -> option JSError
}.

(** A thrown-or-returned value as a computation. *)
Definition of_sum {A} (r : JSError + A) : M A :=
  match r with inl e => throw e | inr a => ret a end.

(** [a || b] on header values: [a] when it is a non-empty string. *)
Definition or_else (a b : option string) : option string :=
  match a with
  | Some s => if string_truthy s then Some s else b
  | None => b
  end.

(** [a || dflt] for an optional string member of the configuration. *)
Definition or_default (a : option string) (dflt : string) : string :=
  match a with
  | Some s => if string_truthy s then s else dflt
  | None => dflt
  end.

(** Truthiness of an optional boolean member of the configuration. *)
Definition flag (b : option bool) : bool := with_default false b.

(** [event.headers["content-type"] || event.headers["Content-Type"]] *)
Definition contentType_of (event : APIGatewayEvent) : option string :=
  or_else (ev_headers event !! "content-type")
          (ev_headers event !! "Content-Type").

(** [contentType && contentType.includes("multipart/form-data")] *)
Definition is_multipart (contentType : option string) : bool :=
  match contentType with
  | Some ct => string_truthy ct && includes "multipart/form-data" ct
  | None => false
  end.

(** ** The handler *)

(** The verification endpoint. *)
Definition recaptcha_host : string := "www.google.com".
Definition recaptcha_path : string := "/recaptcha/api/siteverify".

Definition no_secret_warning : string :=
  "No reCAPTCHA secret configured — skipping verification.".
Definition send_disabled_warning : string :=
  "Email sending disabled. Returning success for testing.".
Definition generic_message : string :=
  "Internal error, please try again later".

Section Handler.
Variable env : Collaborators.

(** *** [extractMultipart] *)

(** [const result = { files: [] }] *)
Definition initial_result : list (string * JSValue) := [("files", JArr [])].

(** The [field] listener: [result[fieldname] = value].  Assigning a
    string to [__proto__] leaves an object as it is. *)
Definition on_field (fieldname value : string)
    (result : list (string * JSValue)) : list (string * JSValue) :=
  if String.eqb fieldname "__proto__" then result
  else set_prop fieldname (JStr value) result.

(** The [end] listener of a file stream: [result.files.push({...})] with
    the chunks concatenated.  It runs outside the promise's executor, so
    what it throws reaches no [reject]. *)
Definition on_file_end (info : FileInfo) (chunks : list (list Byte.byte))
    (result : list (string * JSValue)) : M (list (string * JSValue)) :=
  match get_own result "files" with
  | JArr files =>
      ret (set_prop "files"
             (JArr (files ++
                [JObj [("filename", filename info);
                       ("contentType", mimeType info);
                       ("content", JBuffer (concat chunks))]]))
             result)
  | _ => crash (TypeError "result.files.push is not a function")
  end.

Fixpoint run_listeners (parts : list Part) (result : list (string * JSValue))
  : M (list (string * JSValue)) :=
  match parts with
  | [] => ret result
  | FieldPart fieldname value :: rest =>
      run_listeners rest (on_field fieldname value result)
  | FilePart info chunks :: rest =>
      let* result' := on_file_end info chunks result in
      run_listeners rest result'
  end.

(** [function extractMultipart(event)]: awaited, so a rejection is a
    [Throw].  The [close] listener resolves with
    [{ ...result, files: result.files }]. *)
Definition extractMultipart (event : APIGatewayEvent) : M JSValue :=
  let enc := if isBase64Encoded event then base64 else binary in
  let written :=
    match ev_body event with
    | Some b => if string_truthy b then Some (b, enc) else None
    | None => None
    end in
  let '(parts, fin) := busboy env (contentType_of event) written in
  let* result := run_listeners parts initial_result in
  match fin with
  | Close => ret (JObj (set_prop "files" (get_own result "files") result))
  | ParserError err => throw err
  end.

(** *** [verifyRecaptchaToken] *)

(** [async function verifyRecaptchaToken(token, secret)]: resolves with
    [json.success]; rejects with the request's error or with whatever
    the [try] around [JSON.parse(data)] and [json.success] catches. *)
Definition verifyRecaptchaToken (token : JSValue) (secret : option string)
  : M JSValue :=
  match secret with
  | Some (String c s) =>
      let postData :=
        querystring_stringify env
          [("secret", JStr (String c s)); ("response", token)] in
      emit (HttpsRequest "www.google.com" "/recaptcha/api/siteverify" postData) ;;;
      match https_request env "www.google.com" "/recaptcha/api/siteverify" postData with
      | RequestError err => throw err
      | ResponseText data =>
          let* json := of_sum (JSON_parse env data) in
          get_prop json "success"
      end
  | _ =>
      emit (ConsoleWarn no_secret_warning) ;;;
      ret (JBool true)
  end.

(** *** [createSendMailHandler] *)

Variable config : SendMailConfig.

(** [const validate = ajv.compile(schema)] *)
Definition validate : JSValue -> Validation :=
  compile (format_ok env) schema.

(** [(validate.errors?.[0])?.message || "Invalid input"] *)
Definition first_message (errs : option (list ErrorObject)) : string :=
  match errs with
  | Some (e :: _) => or_default (message e) "Invalid input"
  | _ => "Invalid input"
  end.

(** The attachment built from one element of [body.files]. *)
Definition attachment_of (file : JSValue) : M JSValue :=
  let* name := get_prop file "filename" in
  let* content := get_prop file "content" in
  ret (JObj [("filename", name); ("content", content)]).

(** The [mailOptions] of the handler: the object literal, then the
    [attachments] assigned when [body.files] is truthy. *)
Definition build_mailOptions (body : JSValue) : M SendMailOptions :=
  let* subject := get_prop body "subject" in
  let* text := get_prop body "message" in
  let* replyTo := get_prop body "email" in
  let* files := get_prop body "files" in
  let* attachments :=
    if truthy files then
      match files with
      | JArr items => let* atts := mapM attachment_of items in ret (Some atts)
      | _ => throw (TypeError "body.files.map is not a function")
      end
    else ret None in
  ret {| from := senderEmail config;
         to := recipientEmail config;
         subject := subject;
         text := text;
         replyTo := replyTo;
         attachments := attachments |}.

(** From building [mailOptions] to the success response. *)
Definition dispatch (body : JSValue) : M Response :=
  let* mailOptions := build_mailOptions body in
  (if flag (disableSend config) then
     emit (ConsoleWarn send_disabled_warning)
   else
     let sesRegion := or_default (region config) "us-west-2" in
     emit (SendMail sesRegion mailOptions) ;;;
     match sendMail env sesRegion mailOptions with
     | None => ret tt
     | Some err => throw err
     end) ;;;
  ret (buildSuccessResponse "Mail sent successfully" None).

(** The first statements of the [try] block: the payload, from the
    multipart parser or from [JSON.parse(event.body ?? "")]. *)
Definition extract_body (event : APIGatewayEvent) : M JSValue :=
  if is_multipart (contentType_of event) then extractMultipart event
  else of_sum (JSON_parse env (with_default EmptyString (ev_body event))).

(** The rest of the [try] block, from [validate(body)] on. *)
Definition process (body : JSValue) : M Response :=
  let v := validate body in
  if negb (valid v) then
    let msg := first_message (errors v) in
    ret (buildErrorResponse (new_Error msg) msg (Some 400))
  else if negb (flag (skipRecaptcha config)) then
    let* token := get_prop body "recaptcha" in
    let* verified := verifyRecaptchaToken token (recaptchaSecret config) in
    if negb (truthy verified) then
      ret (buildErrorResponse (new_Error "Invalid reCAPTCHA")
             "reCAPTCHA failed" (Some 400))
    else dispatch body
  else dispatch body.

(** The body of the [try] block. *)
Definition handle (event : APIGatewayEvent) : M Response :=
  let* body := extract_body event in
  process body.

(** The handler returned by [createSendMailHandler(config)]: the [try]
    block and its [catch].  [Ret r] is [cb(null, r)]. *)
Definition createSendMailHandler (event : APIGatewayEvent) : M Response :=
  try_catch (handle event)
    (fun err =>
       emit (ConsoleError err) ;;;
       ret (buildErrorResponse err generic_message (Some 500))).
End Handler.

(** * Vocabulary of the statements *)

(** Every event of a computation satisfies [P]. *)
Definition all_events {A} (P : Event -> Prop) (m : M A) : Prop :=
  Forall P (trace m).

(** The text before the fault's description in the body of an error
    response with the generic message. *)
Definition generic_error_prefix : string :=
  Eval cbv in
    "{" +:+ JSON_quote "message" +:+ ":" +:+ JSON_quote generic_message +:+
    "," +:+ JSON_quote "error" +:+ ":".

(** The request body [verifyRecaptchaToken] posts for a payload. *)
Definition recaptcha_postData env (secret : string)
    (props : list (string * JSValue)) : string :=
  querystring_stringify env
    [("secret", JStr secret); ("response", get_own props "recaptcha")].

Definition status_of (m : M Response) : option Z :=
  match result m with Ret resp => Some (statusCode resp) | _ => None end.

Definition lookup_failed : JSError :=
  mkError "Error" "getaddrinfo ENOTFOUND www.google.com".

(** The text Ajv gives for a missing required property. *)
Definition required_message (k : string) : string :=
  "must have required property '" +:+ k +:+ "'".

(** The events only [verifyRecaptchaToken] emits: the request to the
    verification endpoint, and the warning that no secret is configured. *)
Definition verification_event (ev : Event) : bool :=
  match ev with
  | HttpsRequest _ _ _ => true
  | ConsoleWarn msg => String.eqb msg no_secret_warning
  | _ => false
  end.

Definition is_SendMail (ev : Event) : bool :=
  match ev with SendMail _ _ => true | _ => false end.

Definition is_nullish (v : JSValue) : bool :=
  match v with JUndefined | JNull => true | _ => false end.

(** [v.k] where it cannot throw. *)
Definition prop_of (v : JSValue) (k : string) : JSValue :=
  match v with JObj props => get_own props k | _ => JUndefined end.

(** The [files] of a payload are well formed when [body.files] is falsy
    or an array without [null] elements: what [interface PostBody]
    allows. *)
Definition files_well_formed (props : list (string * JSValue)) : bool :=
  match get_own props "files" with
  | JArr items => forallb (fun file => negb (is_nullish file)) items
  | v => negb (truthy v)
  end.

(** The attachment the handler builds from a file. *)
Definition attachment (file : JSValue) : JSValue :=
  JObj [("filename", prop_of file "filename");
        ("content", prop_of file "content")].

(** The attachments the handler builds from [body.files]. *)
Definition attachments_of (files : JSValue) : option (list JSValue) :=
  match files with
  | JArr items => Some (map attachment items)
  | _ => None
  end.

(** The captcha stage lets the payload through: it is skipped, or the
    verifier resolves with a truthy value. *)
Definition recaptcha_passes env config (props : list (string * JSValue)) : Prop :=
  flag (skipRecaptcha config) = true \/
  exists verified,
    result (verifyRecaptchaToken env (get_own props "recaptcha")
              (recaptchaSecret config)) = Ret verified /\
    truthy verified = true.

(** A fully valid payload: it passes the schema, its files are well
    formed, and the captcha stage lets it through. *)
Definition fully_valid env config (props : list (string * JSValue)) : Prop :=
  valid (validate env (JObj props)) = true /\
  files_well_formed props = true /\
  recaptcha_passes env config props.

Definition success_body : string :=
  "{" +:+ dquote +:+ "message" +:+ dquote +:+ ":" +:+
  dquote +:+ "Mail sent successfully" +:+ dquote +:+ "}".

(** The record the [end] listener pushes for a file. *)
Definition file_record (info : FileInfo) (chunks : list (list Byte.byte))
  : JSValue :=
  JObj [("filename", filename info);
        ("contentType", mimeType info);
        ("content", JBuffer (concat chunks))].

(** The records of the file parts of a form, in order. *)
Fixpoint file_records (parts : list Part) : list JSValue :=
  match parts with
  | [] => []
  | FieldPart _ _ :: rest => file_records rest
  | FilePart info chunks :: rest => file_record info chunks :: file_records rest
  end.

Definition is_files_field (part : Part) : bool :=
  match part with
  | FieldPart fieldname _ => String.eqb fieldname "files"
  | FilePart _ _ => false
  end.

(** ** The stages of a run *)

(** The captcha stage for a validated payload: whether the handler goes
    on to build the mail.  It is skipped, or the verifier is called with
    the payload's [recaptcha] and its answer is tested for truthiness. *)
Definition captcha_stage env config (props : list (string * JSValue)) : M bool :=
  if flag (skipRecaptcha config) then ret true
  else
    let* verified :=
      verifyRecaptchaToken env (get_own props "recaptcha")
        (recaptchaSecret config) in
    ret (truthy verified).

(** The response of the [catch] for a fault. *)
Definition fault_response (e : JSError) : Response :=
  buildErrorResponse e generic_message (Some 500).

(** The response to a payload that fails validation. *)
Definition invalid_response env (body : JSValue) : Response :=
  let msg := first_message (errors (validate env body)) in
  buildErrorResponse (new_Error msg) msg (Some 400).

(** The response to a failed verification. *)
Definition recaptcha_response : Response :=
  buildErrorResponse (new_Error "Invalid reCAPTCHA") "reCAPTCHA failed" (Some 400).

Definition success_response : Response :=
  buildSuccessResponse "Mail sent successfully" None.

(** The region of the SES client: [config.region || "us-west-2"]. *)
Definition ses_region (config : SendMailConfig) : string :=
  or_default (region config) "us-west-2".

(** The ways a call of the handler can go, each with its outcome and its
    trace: the paths through the [try] block and the [catch], in the order
    of the source. *)
Inductive Run env config event : M Response -> Prop :=
| Run_extraction_fault e :
    result (extract_body env event) = Throw e ->
    Run env config event (Ret (fault_response e), [ConsoleError e])
| Run_listener_crash e :
    result (extract_body env event) = Uncaught e ->
    Run env config event (Uncaught e, [])
| Run_invalid body :
    result (extract_body env event) = Ret body ->
    valid (validate env body) = false ->
    Run env config event (Ret (invalid_response env body), [])
| Run_verification_fault props e tc :
    result (extract_body env event) = Ret (JObj props) ->
    valid (validate env (JObj props)) = true ->
    captcha_stage env config props = (Throw e, tc) ->
    Run env config event (Ret (fault_response e), tc ++ [ConsoleError e])
| Run_verification_failed props tc :
    result (extract_body env event) = Ret (JObj props) ->
    valid (validate env (JObj props)) = true ->
    captcha_stage env config props = (Ret false, tc) ->
    Run env config event (Ret recaptcha_response, tc)
| Run_attachments_fault props tc e :
    result (extract_body env event) = Ret (JObj props) ->
    valid (validate env (JObj props)) = true ->
    captcha_stage env config props = (Ret true, tc) ->
    build_mailOptions config (JObj props) = throw e ->
    Run env config event (Ret (fault_response e), tc ++ [ConsoleError e])
| Run_send_disabled props tc mail :
    result (extract_body env event) = Ret (JObj props) ->
    valid (validate env (JObj props)) = true ->
    captcha_stage env config props = (Ret true, tc) ->
    build_mailOptions config (JObj props) = ret mail ->
    flag (disableSend config) = true ->
    Run env config event
      (Ret success_response, tc ++ [ConsoleWarn send_disabled_warning])
| Run_sent props tc mail :
    result (extract_body env event) = Ret (JObj props) ->
    valid (validate env (JObj props)) = true ->
    captcha_stage env config props = (Ret true, tc) ->
    build_mailOptions config (JObj props) = ret mail ->
    flag (disableSend config) = false ->
    sendMail env (ses_region config) mail = None ->
    Run env config event
      (Ret success_response, tc ++ [SendMail (ses_region config) mail])
| Run_send_fault props tc mail e :
    result (extract_body env event) = Ret (JObj props) ->
    valid (validate env (JObj props)) = true ->
    captcha_stage env config props = (Ret true, tc) ->
    build_mailOptions config (JObj props) = ret mail ->
    flag (disableSend config) = false ->
    sendMail env (ses_region config) mail = Some e ->
    Run env config event
      (Ret (fault_response e),
       tc ++ [SendMail (ses_region config) mail; ConsoleError e]).

(** The calls that leave the process: the verification request and the
    call of the mail transport. *)
Definition is_outbound (ev : Event) : bool :=
  match ev with
  | HttpsRequest _ _ _ | SendMail _ _ => true
  | _ => false
  end.

Definition is_HttpsRequest (ev : Event) : bool :=
  match ev with HttpsRequest _ _ _ => true | _ => false end.

Definition is_ConsoleError (ev : Event) : bool :=
  match ev with ConsoleError _ => true | _ => false end.

(** The texts Ajv gives for the other violations of the schema. *)
Definition must_be_object : string := "must be object".
Definition must_be_string : string := "must be string".
Definition must_match_email : string :=
  "must match format " +:+ dquote +:+ "email" +:+ dquote.

(** The value of the last plain field called [name] among the parts of
    a form, if there is one. *)
Fixpoint last_field (name : string) (parts : list Part) : option string :=
  match parts with
  | [] => None
  | FieldPart fieldname value :: rest =>
      match last_field name rest with
      | Some v => Some v
      | None => if String.eqb fieldname name then Some value else None
      end
  | FilePart _ _ :: rest => last_field name rest
  end.

(** What is written to the multipart parser for an event: the body, when
    it is neither [null] nor empty, in the encoding the event announces. *)
Definition written_of (event : APIGatewayEvent) : option (string * Encoding) :=
  match ev_body event with
  | Some b =>
      if string_truthy b
      then Some (b, if isBase64Encoded event then base64 else binary)
      else None
  | None => None
  end.

Definition is_field (part : Part) : bool :=
  match part with FieldPart _ _ => true | FilePart _ _ => false end.

(** A configuration with [skipRecaptcha] switched on. *)
Definition with_skipRecaptcha (config : SendMailConfig) : SendMailConfig :=
  {| region := region config;
     skipRecaptcha := Some true;
     disableSend := disableSend config;
     senderEmail := senderEmail config;
     recipientEmail := recipientEmail config;
     recaptchaSecret := recaptchaSecret config |}.

(** ** The helper of the test suite *)

(** A record of strings as a JavaScript object. *)
Definition record_value (fields : list (string * string)) : JSValue :=
  JObj (map (fun kv => (fst kv, JStr (snd kv))) fields).

(** [function buildEvent(body)] of the tests, for a [body] whose
    properties are strings: the members the handler reads. *)
Definition buildEvent (fields : list (string * string)) : APIGatewayEvent :=
  {| ev_headers := {[ "Content-Type" := "application/json" ]};
     ev_body := Some (JSON_stringify_record fields);
     isBase64Encoded := false |}.

(** The attachments the transport gets for the file parts of a form: the
    name and the bytes of each file, in order. *)
Fixpoint uploads (parts : list Part) : list JSValue :=
  match parts with
  | [] => []
  | FieldPart _ _ :: rest => uploads rest
  | FilePart info chunks :: rest =>
      JObj [("filename", filename info); ("content", JBuffer (concat chunks))]
      :: uploads rest
  end.

(** ** A concrete world

    One environment to run the handler in: a [JSON.parse] that knows a
    few texts, a multipart parser that knows one form, and a verification
    endpoint and a mail transport whose answers are given. *)
Module Sample.
Definition crlf : string := String "013"%char (String "010"%char EmptyString).

(** The JSON text of a flat object with string members. *)
Definition json_text (fields : list (string * string)) : string :=
  JSON_stringify_record fields.

Definition as_object (fields : list (string * string)) : JSValue :=
  JObj (map (fun kv => (fst kv, JStr (snd kv))) fields).

Definition jane : list (string * string) :=
  [("name", "Jane Doe"); ("email", "jane@example.com"); ("subject", "Hi");
   ("message", "hey"); ("recaptcha", "tok")].

(** [jane] without the [name]. *)
Definition anonymous : list (string * string) :=
  [("email", "jane@example.com"); ("subject", "Hi");
   ("message", "hey"); ("recaptcha", "tok")].

Definition success_false : string := "{" +:+ dquote +:+ "success" +:+ dquote +:+ ":false}".
Definition success_true : string := "{" +:+ dquote +:+ "success" +:+ dquote +:+ ":true}".

Definition SyntaxError (msg : string) : JSError := mkError "SyntaxError" msg.

(** [JSON.parse] on the texts used below.  Every other text is
    rejected, with the message of the empty text, the only rejected
    text whose message is looked at. *)
Definition parse (s : string) : JSError + JSValue :=
  if String.eqb s (json_text jane) then inr (as_object jane)
  else if String.eqb s (json_text anonymous) then inr (as_object anonymous)
  else if String.eqb s success_false then inr (JObj [("success", JBool false)])
  else if String.eqb s success_true then inr (JObj [("success", JBool true)])
  else inl (SyntaxError "Unexpected end of JSON input").

(** The text of a form with boundary [X]: its plain fields, then one
    part per file. *)
Definition form_part (kv : string * string) : string :=
  "--X" +:+ crlf +:+
  "Content-Disposition: form-data; name=" +:+ dquote +:+ fst kv +:+ dquote +:+
  crlf +:+ crlf +:+ snd kv +:+ crlf.

Definition file_part (file : string * string) : string :=
  "--X" +:+ crlf +:+
  "Content-Disposition: form-data; name=" +:+ dquote +:+ "upload" +:+ dquote +:+
  "; filename=" +:+ dquote +:+ fst file +:+ dquote +:+ crlf +:+
  "Content-Type: text/plain" +:+ crlf +:+ crlf +:+ snd file +:+ crlf.

Definition form_text (fields files : list (string * string)) : string :=
  String.concat EmptyString (map form_part fields) +:+
  String.concat EmptyString (map file_part files) +:+ "--X--" +:+ crlf.

Definition form_type : string := "multipart/form-data; boundary=X".

(** [jane], and a sixth plain field that happens to be called [files]. *)
Definition jane_with_files_field : list (string * string) :=
  jane ++ [("files", "x")].

(** A text file to upload. *)
Definition x_txt : string * string := ("x.txt", "hello").

(** What the parser reports for such a form: the fields, then the
    files, each delivered in one chunk. *)
Definition parts_of (fields files : list (string * string)) : list Part :=
  map (fun kv => FieldPart (fst kv) (snd kv)) fields ++
  map (fun file =>
         FilePart (mkFileInfo (JStr (fst file)) "7bit" (JStr "text/plain"))
                  [list_byte_of_string (snd file)])
      files.

(** The forms used below. *)
Definition known_forms
  : list (list (string * string) * list (string * string)) :=
  [(jane, []); (jane_with_files_field, []); (jane, [x_txt])].

Fixpoint find_form (text : string)
    (forms : list (list (string * string) * list (string * string)))
  : option (list Part) :=
  match forms with
  | [] => None
  | (fields, files) :: rest =>
      if String.eqb text (form_text fields files)
      then Some (parts_of fields files)
      else find_form text rest
  end.

(** The multipart parser on these forms. *)
Definition parse_form (contentType : option string)
    (written : option (string * Encoding)) : list Part * ParserEnd :=
  match contentType, written with
  | Some ct, Some (text, binary) =>
      if String.eqb ct form_type then
        match find_form text known_forms with
        | Some parts => (parts, Close)
        | None => ([], ParserError (mkError "Error" "Unexpected end of form"))
        end
      else ([], ParserError (mkError "Error" "Unsupported content type"))
  | _, _ => ([], ParserError (mkError "Error" "Missing Content-Type"))
  end.

(** [querystring.stringify] on values that need no escaping. *)
Definition stringify_query (props : list (string * JSValue)) : string :=
  String.concat "&"
    (map (fun kv => fst kv +:+ "=" +:+
                    match snd kv with JStr s => s | _ => EmptyString end)
         props).

Definition world (verification : HttpsOutcome) (delivery : option JSError)
  : Collaborators :=
  {| JSON_parse := parse;
     format_ok := fun fmt s => String.eqb fmt "email" && includes "@" s;
     busboy := parse_form;
     querystring_stringify := stringify_query;
     https_request := fun _ _ _ => verification;
     sendMail := fun _ _ => delivery |}.

Definition json_headers : gmap string string :=
  {[ "Content-Type" := "application/json" ]}.

Definition json_event (text : option string) : APIGatewayEvent :=
  mkEvent json_headers text false.

Definition form_event (key : string) (fields files : list (string * string))
  : APIGatewayEvent :=
  mkEvent {[ key := form_type ]} (Some (form_text fields files)) false.

(** The configuration of the repository's tests. *)
Definition test_config : SendMailConfig :=
  {| region := None; skipRecaptcha := Some true; disableSend := Some true;
     senderEmail := "sender@example.com";
     recipientEmail := "recipient@example.com";
     recaptchaSecret := None |}.

(** A production configuration: verification and sending both on. *)
Definition live_config : SendMailConfig :=
  {| region := None; skipRecaptcha := None; disableSend := None;
     senderEmail := "no-reply@example.com";
     recipientEmail := "hello@example.com";
     recaptchaSecret := Some "secret" |}.
End Sample.

(** ** More of the concrete world

    The world of [Sample], with a [JSON.parse] and a multipart parser that
    know a few more texts. *)
Module Cases.
(** [Sample.jane] with an address that is none. *)
Definition bad_email : list (string * string) :=
  [("name", "Jane Doe"); ("email", "jane.example.com"); ("subject", "Hi");
   ("message", "hey"); ("recaptcha", "tok")].

Definition parse (s : string) : JSError + JSValue :=
  if String.eqb s (Sample.json_text bad_email)
  then inr (Sample.as_object bad_email)
  else if String.eqb s "null" then inr JNull
  else if String.eqb s "[]" then inr (JArr [])
  else if String.eqb s "1" then inr (JNum 1)
  else Sample.parse s.

(** A form with a plain field called [files] and an uploaded file: the
    listeners of the fields run before the stream of the file ends. *)
Definition parse_form (contentType : option string)
    (written : option (string * Encoding)) : list Part * ParserEnd :=
  match contentType, written with
  | Some ct, Some (text, binary) =>
      if String.eqb ct Sample.form_type
         && String.eqb text
              (Sample.form_text Sample.jane_with_files_field [Sample.x_txt])
      then (Sample.parts_of Sample.jane_with_files_field [Sample.x_txt], Close)
      else Sample.parse_form contentType written
  | _, _ => Sample.parse_form contentType written
  end.

Definition world (verification : HttpsOutcome) (delivery : option JSError)
  : Collaborators :=
  {| JSON_parse := parse;
     format_ok := fun fmt s => String.eqb fmt "email" && includes "@" s;
     busboy := parse_form;
     querystring_stringify := Sample.stringify_query;
     https_request := fun _ _ _ => verification;
     sendMail := fun _ _ => delivery |}.
End Cases.

(** * Texts of responses, written out *)

(** The JSON text of an error body whose [message] and [error] need no
    escaping, character by character. *)
Definition error_body_text (message error : string) : string :=
  "{" +:+ dquote +:+ "message" +:+ dquote +:+ ":" +:+
  dquote +:+ message +:+ dquote +:+ "," +:+
  dquote +:+ "error" +:+ dquote +:+ ":" +:+
  dquote +:+ error +:+ dquote +:+ "}".

(** The two headers of every response. *)
Definition fixed_headers : list (string * string) :=
  [("Content-Type", "application/json");
   ("Access-Control-Allow-Origin", "*")].

(** ** Payloads that are valid and have no usable files *)
Module Untyped.
(** [Sample.jane] with a [files] that is a string, as a JSON body. *)
Definition files_string_text : string :=
  Sample.json_text Sample.jane_with_files_field.

(** [Sample.jane] with a [files] that is an array holding [null]. *)
Definition files_null_text : string :=
  "{" +:+ JSON_members Sample.jane +:+ "," +:+
  dquote +:+ "files" +:+ dquote +:+ ":[null]}".

Definition files_null_props : list (string * JSValue) :=
  props_of (Sample.as_object Sample.jane) ++ [("files", JArr [JNull])].

Definition parse (s : string) : JSError + JSValue :=
  if String.eqb s files_string_text
  then inr (Sample.as_object Sample.jane_with_files_field)
  else if String.eqb s files_null_text then inr (JObj files_null_props)
  else Cases.parse s.

Definition world (verification : HttpsOutcome) (delivery : option JSError)
  : Collaborators :=
  {| JSON_parse := parse;
     format_ok := fun fmt s => String.eqb fmt "email" && includes "@" s;
     busboy := Sample.parse_form;
     querystring_stringify := Sample.stringify_query;
     https_request := fun _ _ _ => verification;
     sendMail := fun _ _ => delivery |}.
End Untyped.

(** * Properties *)

(** ** The monad *)

Lemma bind_ret_l {A B} (a : A) (k : A -> M B) : bind (ret a) k = k a.
Proof. unfold bind, ret. destruct (k a) as [r t]. reflexivity. Qed.

Lemma bind_throw_l {A B} (e : JSError) (k : A -> M B) :
  bind (throw e) k = throw e.
Proof. reflexivity. Qed.

Lemma result_bind {A B} (m : M A) (k : A -> M B) :
  result (bind m k) =
  match result m with
  | Ret a => result (k a)
  | Throw e => Throw e
  | Uncaught e => Uncaught e
  end.
Proof.
  destruct m as [[a | e | e] t]; simpl; try reflexivity.
  destruct (k a); reflexivity.
Qed.

Lemma trace_bind {A B} (m : M A) (k : A -> M B) :
  trace (bind m k) =
  match result m with
  | Ret a => trace m ++ trace (k a)
  | _ => trace m
  end.
Proof.
  destruct m as [[a | e | e] t]; simpl; try reflexivity.
  destruct (k a); reflexivity.
Qed.

Lemma M_eta {A} (m : M A) : m = (result m, trace m).
Proof. destruct m; reflexivity. Qed.

(** A computation that returns without a trace is a [ret]. *)
Lemma silent_ret {A} (m : M A) (a : A) :
  result m = Ret a -> trace m = [] -> m = ret a.
Proof. destruct m as [r t]; simpl; intros -> ->; reflexivity. Qed.

Lemma all_events_ret {A} P (a : A) : all_events P (ret a).
Proof. constructor. Qed.

Lemma all_events_throw {A} P e : all_events P (@throw A e).
Proof. constructor. Qed.

Lemma all_events_crash {A} P e : all_events P (@crash A e).
Proof. constructor. Qed.

Lemma all_events_emit (P : Event -> Prop) ev : P ev -> all_events P (emit ev).
Proof. intros H; repeat constructor; exact H. Qed.

Lemma all_events_bind {A B} P (m : M A) (k : A -> M B) :
  all_events P m -> (forall a, all_events P (k a)) -> all_events P (bind m k).
Proof.
  unfold all_events; intros Hm Hk. rewrite trace_bind.
  destruct (result m); auto. apply Forall_app; split; auto.
Qed.

Lemma all_events_try_catch {A} P (m : M A) h :
  all_events P m -> (forall e, all_events P (h e)) ->
  all_events P (try_catch m h).
Proof.
  unfold all_events, try_catch; intros Hm Hh.
  destruct m as [[a | e | e] t]; simpl in *; auto.
  specialize (Hh e). destruct (h e) as [r t']; simpl in *.
  apply Forall_app; split; auto.
Qed.

Lemma all_events_of_sum {A} P (r : JSError + A) : all_events P (of_sum r).
Proof. destruct r; constructor. Qed.

Lemma all_events_get_prop P v k : all_events P (get_prop v k).
Proof. destruct v; constructor. Qed.

Lemma all_events_mapM {A B} P (f : A -> M B) l :
  (forall a, all_events P (f a)) -> all_events P (mapM f l).
Proof.
  intros Hf; induction l as [| x l IH]; simpl.
  - apply all_events_ret.
  - apply all_events_bind; [apply Hf | intros y].
    apply all_events_bind; [exact IH | intros ys]. apply all_events_ret.
Qed.

Create HintDb events.

#[local] Hint Resolve all_events_ret all_events_throw all_events_crash
  all_events_of_sum all_events_get_prop : events.

(** ** Which events each part of the handler can emit *)

Section Events.
Variable env : Collaborators.
Variable config : SendMailConfig.
Variable P : Event -> Prop.

Lemma run_listeners_events parts result :
  all_events P (run_listeners parts result).
Proof.
  revert result; induction parts as [| [f v | info chunks] parts IH];
    intros result; simpl; auto with events.
  apply all_events_bind; auto.
  unfold on_file_end. destruct (get_own result "files"); auto with events.
Qed.

Lemma extractMultipart_events event : all_events P (extractMultipart env event).
Proof.
  unfold extractMultipart. destruct (busboy env _ _) as [parts fin].
  apply all_events_bind; [apply run_listeners_events |].
  intros result; destruct fin; auto with events.
Qed.

Lemma extract_body_events event : all_events P (extract_body env event).
Proof.
  unfold extract_body. destruct (is_multipart _);
    [apply extractMultipart_events | auto with events].
Qed.

Lemma verifyRecaptchaToken_events token secret :
  P (ConsoleWarn no_secret_warning) ->
  (forall h p d, P (HttpsRequest h p d)) ->
  all_events P (verifyRecaptchaToken env token secret).
Proof.
  intros Hwarn Hreq. unfold verifyRecaptchaToken.
  destruct secret as [[| c s] |].
  - apply all_events_bind; [apply all_events_emit; exact Hwarn | auto with events].
  - apply all_events_bind; [apply all_events_emit; apply Hreq | intros _].
    destruct (https_request env _ _ _); auto with events.
    apply all_events_bind; auto with events.
  - apply all_events_bind; [apply all_events_emit; exact Hwarn | auto with events].
Qed.

Lemma attachment_of_events file : all_events P (attachment_of file).
Proof.
  unfold attachment_of. repeat (apply all_events_bind; [auto with events | intros ?]).
  auto with events.
Qed.

Lemma build_mailOptions_events body : all_events P (build_mailOptions config body).
Proof.
  unfold build_mailOptions.
  do 3 (apply all_events_bind; [auto with events | intros ?]).
  apply all_events_bind; [auto with events | intros files].
  apply all_events_bind; [| auto with events].
  destruct (truthy files); auto with events.
  destruct files; auto with events.
  apply all_events_bind; [| auto with events].
  apply all_events_mapM, attachment_of_events.
Qed.

Lemma dispatch_events body :
  (if flag (disableSend config) then P (ConsoleWarn send_disabled_warning)
   else forall r m, P (SendMail r m)) ->
  all_events P (dispatch env config body).
Proof.
  intros Hsend. unfold dispatch.
  apply all_events_bind; [apply build_mailOptions_events | intros mail].
  apply all_events_bind; [| auto with events].
  destruct (flag (disableSend config)).
  - apply all_events_emit, Hsend.
  - apply all_events_bind; [apply all_events_emit, Hsend | intros _].
    destruct (sendMail env _ _); auto with events.
Qed.

(** The events of a whole invocation: the error log of the [catch], the
    events of the verification unless it is skipped, and either the
    warning that sending is disabled or the call of the transport. *)
Lemma handler_events event :
  (forall e, P (ConsoleError e)) ->
  (flag (skipRecaptcha config) = false ->
   P (ConsoleWarn no_secret_warning) /\ forall h p d, P (HttpsRequest h p d)) ->
  (if flag (disableSend config) then P (ConsoleWarn send_disabled_warning)
   else forall r m, P (SendMail r m)) ->
  all_events P (createSendMailHandler env config event).
Proof.
  intros Herr Hver Hsend. unfold createSendMailHandler.
  apply all_events_try_catch.
  - unfold handle.
    apply all_events_bind; [apply extract_body_events | intros body].
    unfold process.
    destruct (negb (valid _)); [auto with events |].
    destruct (flag (skipRecaptcha config)) eqn:Hskip; simpl.
    + apply dispatch_events, Hsend.
    + destruct (Hver eq_refl) as [Hwarn Hreq].
      apply all_events_bind; [auto with events | intros token].
      apply all_events_bind;
        [apply verifyRecaptchaToken_events; assumption | intros verified].
      destruct (negb (truthy verified)); [auto with events |].
      apply dispatch_events, Hsend.
  - intros e. apply all_events_bind; [apply all_events_emit, Herr | auto with events].
Qed.
End Events.


(** ** Strings *)

Lemma prefix_app (s t : string) : String.prefix s (s +:+ t) = true.
Proof.
  induction s as [| c s IH]; simpl; [destruct t; reflexivity |].
  destruct (Ascii.ascii_dec c c); [exact IH | congruence].
Qed.

Lemma includes_prefix (needle hay : string) :
  String.prefix needle hay = true -> includes needle hay = true.
Proof. intros H. destruct hay; cbn [includes]; rewrite H; reflexivity. Qed.

Lemma includes_app (needle before after : string) :
  includes needle (before +:+ needle +:+ after) = true.
Proof.
  induction before as [| c before IH].
  - change (includes needle (needle +:+ after) = true).
    apply includes_prefix, prefix_app.
  - change (String c before +:+ needle +:+ after)
      with (String c (before +:+ needle +:+ after)).
    cbn [includes]. rewrite IH. apply orb_true_r.
Qed.

(** ** Extraction and the [catch] *)

(** Extraction emits nothing. *)
Lemma extract_body_trace env event : trace (extract_body env event) = [].
Proof.
  pose proof (extract_body_events env (fun _ => False) event) as H.
  unfold all_events in H. destruct (trace _) as [| ev t]; [reflexivity |].
  inversion H; contradiction.
Qed.

(** Once the payload is extracted the [try] block is [process]. *)
Lemma handle_extracted env config event body :
  result (extract_body env event) = Ret body ->
  handle env config event = process env config body.
Proof.
  intros H. unfold handle.
  rewrite (silent_ret _ _ H (extract_body_trace env event)).
  apply bind_ret_l.
Qed.

(** A fault in extraction is the fault of the [try] block. *)
Lemma handle_extraction_fault env config event err :
  result (extract_body env event) = Throw err ->
  handle env config event = throw err.
Proof.
  intros H. unfold handle.
  pose proof (extract_body_trace env event) as Ht.
  destruct (extract_body env event) as [r t]; simpl in *; subst; reflexivity.
Qed.

(** What the [catch] makes of a fault. *)
Lemma handler_caught env config event err :
  result (handle env config event) = Throw err ->
  createSendMailHandler env config event =
    (Ret (buildErrorResponse err generic_message (Some 500)),
     trace (handle env config event) ++ [ConsoleError err]).
Proof.
  intros H. unfold createSendMailHandler, try_catch.
  destruct (handle env config event) as [r t]; simpl in *; subst; reflexivity.
Qed.

(** A response of the [try] block is the handler's response. *)
Lemma handler_returned env config event resp :
  result (handle env config event) = Ret resp ->
  createSendMailHandler env config event = handle env config event.
Proof.
  intros H. unfold createSendMailHandler, try_catch.
  destruct (handle env config event) as [r t]; simpl in *; subst; reflexivity.
Qed.

(** ** The response builders *)

Lemma generic_error_body err code :
  body (buildErrorResponse err generic_message code) =
  generic_error_prefix +:+ JSON_quote (err_message err) +:+ "}".
Proof. reflexivity. Qed.

(** C9: the response builders are deterministic: two calls of the
    success constructor with the same message and status code, and two
    calls of the error constructor with the same message, status code and
    error, give the same envelope, field by field and so byte for byte in
    the body.  Of the error object only its [message] matters. *)
Theorem response_builders_deterministic
    (message message' : string) (code code' : option Z) (err err' : JSError) :
  message = message' -> code = code' -> err_message err = err_message err' ->
  buildSuccessResponse message code = buildSuccessResponse message' code' /\
  buildErrorResponse err message code = buildErrorResponse err' message' code'.
Proof.
  intros <- <- Herr. split; [reflexivity |].
  unfold buildErrorResponse. rewrite Herr. reflexivity.
Qed.

Lemma response_builders_deterministic_witness :
  buildSuccessResponse "reCAPTCHA failed" (Some 400) =
    buildSuccessResponse "reCAPTCHA failed" (Some 400) /\
  buildErrorResponse (new_Error "Invalid reCAPTCHA") "reCAPTCHA failed" (Some 400) =
    buildErrorResponse (TypeError "Invalid reCAPTCHA") "reCAPTCHA failed" (Some 400).
Proof.
  apply (response_builders_deterministic
           "reCAPTCHA failed" "reCAPTCHA failed" (Some 400) (Some 400)
           (new_Error "Invalid reCAPTCHA") (TypeError "Invalid reCAPTCHA"));
    reflexivity.
Defined.

(** ** Faults *)

(** C4: when the body is parsed as JSON (the content type does not
    announce a multipart form) and [JSON.parse] rejects it, the handler
    answers with status 500: the generic error response, after logging
    the parser's error. *)
Theorem invalid_json_is_500 env config event err :
  is_multipart (contentType_of event) = false ->
  JSON_parse env (with_default EmptyString (ev_body event)) = inl err ->
  createSendMailHandler env config event =
    (Ret (buildErrorResponse err generic_message (Some 500)),
     [ConsoleError err]) /\
  statusCode (buildErrorResponse err generic_message (Some 500)) = 500.
Proof.
  intros Hroute Hparse. split; [| reflexivity].
  assert (Hx : extract_body env event = throw err).
  { unfold extract_body. rewrite Hroute, Hparse. reflexivity. }
  assert (Hh : handle env config event = throw err).
  { apply handle_extraction_fault. rewrite Hx. reflexivity. }
  rewrite (handler_caught env config event err) by (rewrite Hh; reflexivity).
  rewrite Hh. reflexivity.
Qed.

Lemma invalid_json_is_500_witness :
  let env := Sample.world (ResponseText Sample.success_true) None in
  let event := Sample.json_event None in
  let err := Sample.SyntaxError "Unexpected end of JSON input" in
  createSendMailHandler env Sample.live_config event =
    (Ret (buildErrorResponse err generic_message (Some 500)),
     [ConsoleError err]) /\
  statusCode (buildErrorResponse err generic_message (Some 500)) = 500.
Proof.
  apply (invalid_json_is_500
           (Sample.world (ResponseText Sample.success_true) None)
           Sample.live_config (Sample.json_event None)
           (Sample.SyntaxError "Unexpected end of JSON input"));
    vm_compute; reflexivity.
Defined.

(** C1, as the code has it: when the [try] block ends in a fault (a
    parse fault, a dispatch fault or any other), the handler logs the
    fault and answers with status 500 and a body whose [message] is the
    generic one and whose [error] is the fault's description text: the
    JSON string of that text is part of the body. *)
Theorem fault_response_carries_fault_text env config event err :
  result (handle env config event) = Throw err ->
  exists resp,
    result (createSendMailHandler env config event) = Ret resp /\
    statusCode resp = 500 /\
    body resp =
      JSON_stringify_record
        [("message", generic_message); ("error", err_message err)] /\
    includes (JSON_quote (err_message err)) (body resp) = true /\
    In (ConsoleError err) (trace (createSendMailHandler env config event)).
Proof.
  intros H. exists (buildErrorResponse err generic_message (Some 500)).
  rewrite (handler_caught env config event err H).
  split; [reflexivity |]. split; [reflexivity |]. split; [reflexivity |].
  split.
  - rewrite generic_error_body. apply includes_app.
  - simpl. apply in_or_app. right. left. reflexivity.
Qed.

Lemma fault_response_carries_fault_text_witness :
  let env := Sample.world (ResponseText Sample.success_true) None in
  let event := Sample.json_event None in
  let err := Sample.SyntaxError "Unexpected end of JSON input" in
  result (handle env Sample.live_config event) = Throw err /\
  exists resp,
    result (createSendMailHandler env Sample.live_config event) = Ret resp /\
    statusCode resp = 500 /\
    body resp =
      JSON_stringify_record
        [("message", generic_message); ("error", err_message err)] /\
    includes (JSON_quote (err_message err)) (body resp) = true /\
    In (ConsoleError err)
       (trace (createSendMailHandler env Sample.live_config event)).
Proof.
  split; [vm_compute; reflexivity |].
  apply (fault_response_carries_fault_text
           (Sample.world (ResponseText Sample.success_true) None)
           Sample.live_config (Sample.json_event None)
           (Sample.SyntaxError "Unexpected end of JSON input")).
  vm_compute; reflexivity.
Defined.

(** C1, as stated, fails.  A request without a body is parsed as JSON,
    [JSON.parse] throws, and the 500 response carries the parser's text;
    a valid request whose mail the transport rejects gets a 500 response
    that carries the transport's text.  Neither body is the generic
    message alone. *)
Lemma fault_text_reaches_caller :
  let rejected := mkError "MessageRejected" "Email address is not verified." in
  let env := Sample.world (ResponseText Sample.success_true) (Some rejected) in
  (exists resp,
     result (handle env Sample.live_config (Sample.json_event None)) =
       Throw (Sample.SyntaxError "Unexpected end of JSON input") /\
     result (createSendMailHandler env Sample.live_config (Sample.json_event None)) =
       Ret resp /\
     statusCode resp = 500 /\
     includes "Unexpected end of JSON input" (body resp) = true /\
     body resp <> JSON_stringify_record [("message", generic_message)]) /\
  (exists resp,
     let event := Sample.json_event (Some (Sample.json_text Sample.jane)) in
     result (handle env Sample.live_config event) = Throw rejected /\
     result (createSendMailHandler env Sample.live_config event) = Ret resp /\
     statusCode resp = 500 /\
     includes "Email address is not verified." (body resp) = true /\
     body resp <> JSON_stringify_record [("message", generic_message)]).
Proof.
  split; eexists; repeat split; try (vm_compute; reflexivity);
    vm_compute; discriminate.
Qed.

(** ** Verification *)

(** A payload that passes validation is an object. *)
Lemma valid_is_object env body :
  valid (validate env body) = true -> exists props, body = JObj props.
Proof.
  destruct body; try discriminate; eauto.
Qed.

(** The [try] block of a validated payload whose token is verified
    against a configured secret. *)
Lemma process_verifying env config props c s :
  flag (skipRecaptcha config) = false ->
  recaptchaSecret config = Some (String c s) ->
  valid (validate env (JObj props)) = true ->
  process env config (JObj props) =
    let* verified :=
      verifyRecaptchaToken env (get_own props "recaptcha") (Some (String c s)) in
    if negb (truthy verified) then
      ret (buildErrorResponse (new_Error "Invalid reCAPTCHA")
             "reCAPTCHA failed" (Some 400))
    else dispatch env config (JObj props).
Proof.
  intros Hskip Hsecret Hvalid. unfold process.
  rewrite Hvalid, Hskip, Hsecret. simpl negb. cbv iota.
  unfold get_prop. rewrite bind_ret_l. reflexivity.
Qed.

(** C2, as the code has it: for a validated payload, a configured
    secret and [skipRecaptcha] off, a transport error of the verification
    request and a response that is not JSON both end in the [catch]: status
    500, the generic message, the fault's text in [error].  Only a decoded
    response whose [success] is falsy gives status 400 with the message
    [reCAPTCHA failed]. *)
Theorem verification_fault_is_500_false_is_400 env config event props c s :
  flag (skipRecaptcha config) = false ->
  recaptchaSecret config = Some (String c s) ->
  result (extract_body env event) = Ret (JObj props) ->
  valid (validate env (JObj props)) = true ->
  let answer :=
    https_request env recaptcha_host recaptcha_path
      (recaptcha_postData env (String c s) props) in
  (forall err, answer = RequestError err ->
     result (createSendMailHandler env config event) =
       Ret (buildErrorResponse err generic_message (Some 500))) /\
  (forall data err, answer = ResponseText data ->
     JSON_parse env data = inl err ->
     result (createSendMailHandler env config event) =
       Ret (buildErrorResponse err generic_message (Some 500))) /\
  (forall data json, answer = ResponseText data ->
     JSON_parse env data = inr (JObj json) ->
     truthy (get_own json "success") = false ->
     result (createSendMailHandler env config event) =
       Ret (buildErrorResponse (new_Error "Invalid reCAPTCHA")
              "reCAPTCHA failed" (Some 400))).
Proof.
  intros Hskip Hsecret Hbody Hvalid answer.
  pose proof (handle_extracted env config event _ Hbody) as Hh.
  rewrite (process_verifying env config props c s Hskip Hsecret Hvalid) in Hh.
  unfold verifyRecaptchaToken in Hh. cbv zeta in Hh.
  fold (recaptcha_postData env (String c s) props) in Hh.
  change (https_request env _ _ _) with answer in Hh.
  repeat split.
  - intros err Hanswer. rewrite Hanswer in Hh.
    rewrite (handler_caught env config event err);
      [reflexivity | rewrite Hh; reflexivity].
  - intros data err Hanswer Hparse. rewrite Hanswer, Hparse in Hh.
    rewrite (handler_caught env config event err);
      [reflexivity | rewrite Hh; reflexivity].
  - intros data json Hanswer Hparse Hfalse. rewrite Hanswer, Hparse in Hh.
    assert (Hr : result (handle env config event) =
                 Ret (buildErrorResponse (new_Error "Invalid reCAPTCHA")
                        "reCAPTCHA failed" (Some 400))).
    { rewrite Hh. simpl. rewrite Hfalse. reflexivity. }
    rewrite (handler_returned env config event _ Hr). exact Hr.
Qed.

Lemma verification_fault_is_500_false_is_400_witness :
  let event := Sample.json_event (Some (Sample.json_text Sample.jane)) in
  status_of (createSendMailHandler
               (Sample.world (RequestError lookup_failed) None)
               Sample.live_config event) = Some 500 /\
  status_of (createSendMailHandler
               (Sample.world (ResponseText EmptyString) None)
               Sample.live_config event) = Some 500 /\
  status_of (createSendMailHandler
               (Sample.world (ResponseText Sample.success_false) None)
               Sample.live_config event) = Some 400.
Proof.
  intros event.
  pose (props := map (fun kv => (fst kv, JStr (snd kv))) Sample.jane).
  assert (H : forall answer,
    let env := Sample.world answer None in
    flag (skipRecaptcha Sample.live_config) = false /\
    recaptchaSecret Sample.live_config = Some "secret" /\
    result (extract_body env event) = Ret (JObj props) /\
    valid (validate env (JObj props)) = true)
  by (intros answer; repeat split; vm_compute; reflexivity).
  split; [| split]; unfold status_of.
  - destruct (H (RequestError lookup_failed)) as (H1 & H2 & H3 & H4).
    destruct (verification_fault_is_500_false_is_400 _ _ _ _ _ _ H1 H2 H3 H4)
      as (Hfault & _ & _).
    rewrite (Hfault lookup_failed eq_refl). reflexivity.
  - destruct (H (ResponseText EmptyString)) as (H1 & H2 & H3 & H4).
    destruct (verification_fault_is_500_false_is_400 _ _ _ _ _ _ H1 H2 H3 H4)
      as (_ & Hdecode & _).
    rewrite (Hdecode EmptyString
               (Sample.SyntaxError "Unexpected end of JSON input")
               eq_refl eq_refl).
    reflexivity.
  - destruct (H (ResponseText Sample.success_false)) as (H1 & H2 & H3 & H4).
    destruct (verification_fault_is_500_false_is_400 _ _ _ _ _ _ H1 H2 H3 H4)
      as (_ & _ & Hfalse).
    rewrite (Hfalse Sample.success_false [("success", JBool false)]
               eq_refl eq_refl eq_refl).
    reflexivity.
Defined.

(** C2, as stated, fails.  With a secret configured and [skipRecaptcha]
    off, the same valid request gets status 400 and [reCAPTCHA failed]
    when the endpoint answers [success: false], but status 500 and the
    generic message when the request to the endpoint fails and when the
    endpoint's answer is not JSON. *)
Lemma verification_fault_differs_from_false :
  let event := Sample.json_event (Some (Sample.json_text Sample.jane)) in
  let run answer :=
    result (createSendMailHandler (Sample.world answer None)
              Sample.live_config event) in
  run (ResponseText Sample.success_false) =
    Ret (buildErrorResponse (new_Error "Invalid reCAPTCHA")
           "reCAPTCHA failed" (Some 400)) /\
  run (RequestError lookup_failed) =
    Ret (buildErrorResponse lookup_failed
           generic_message (Some 500)) /\
  run (ResponseText EmptyString) =
    Ret (buildErrorResponse (Sample.SyntaxError "Unexpected end of JSON input")
           generic_message (Some 500)) /\
  run (RequestError lookup_failed) <>
    run (ResponseText Sample.success_false).
Proof.
  repeat split; try (vm_compute; reflexivity). vm_compute; discriminate.
Qed.

(** ** The content-type header *)

(** The handler reads the headers through [contentType_of] only, and
    that only to route and, on the multipart route, to configure the
    parser. *)
Lemma handler_reads_route env config e1 e2 :
  ev_body e1 = ev_body e2 ->
  isBase64Encoded e1 = isBase64Encoded e2 ->
  is_multipart (contentType_of e1) = is_multipart (contentType_of e2) ->
  (is_multipart (contentType_of e1) = true ->
   contentType_of e1 = contentType_of e2) ->
  createSendMailHandler env config e1 = createSendMailHandler env config e2.
Proof.
  intros Hbody Hb64 Hroute Hct.
  assert (Hx : extract_body env e1 = extract_body env e2).
  { unfold extract_body. rewrite <- Hroute, <- Hbody.
    destruct (is_multipart (contentType_of e1)); [| reflexivity].
    unfold extractMultipart. rewrite <- Hbody, <- Hb64, <- (Hct eq_refl).
    reflexivity. }
  unfold createSendMailHandler, handle. rewrite Hx. reflexivity.
Qed.

(** C3, as the code has it: the lookup reads two spellings of the key and
    no other.  A value stored under [content-type] or under [Content-Type]
    (with no entry under either in the rest of the headers) gives the same
    routing decision and the same run.  When both keys are present, a
    non-empty value under [content-type] is the one used, whatever
    [Content-Type] holds; [Content-Type] is used when [content-type] is
    absent or empty.  Headers that agree on these two keys give the same
    run, so an entry under any other key, another casing of the name
    included, changes nothing; and when neither key is present the body is
    parsed as JSON whatever the other keys hold. *)
Theorem content_type_two_spellings env config
    (h h' : gmap string string) (k v : string)
    (text : option string) (b64 : bool) :
  (h !! "content-type" = None ->
   h !! "Content-Type" = None ->
   let lower := mkEvent (<["content-type" := v]> h) text b64 in
   let upper := mkEvent (<["Content-Type" := v]> h) text b64 in
   is_multipart (contentType_of lower) = is_multipart (contentType_of upper) /\
   is_multipart (contentType_of lower) = includes "multipart/form-data" v /\
   createSendMailHandler env config lower =
     createSendMailHandler env config upper) /\
  (h !! "content-type" = Some v ->
   string_truthy v = true ->
   contentType_of (mkEvent h text b64) = Some v /\
   is_multipart (contentType_of (mkEvent h text b64)) =
     includes "multipart/form-data" v) /\
  (or_default (h !! "content-type") EmptyString = EmptyString ->
   contentType_of (mkEvent h text b64) = h !! "Content-Type") /\
  (h !! "content-type" = h' !! "content-type" ->
   h !! "Content-Type" = h' !! "Content-Type" ->
   createSendMailHandler env config (mkEvent h text b64) =
     createSendMailHandler env config (mkEvent h' text b64)) /\
  (k <> "content-type" ->
   k <> "Content-Type" ->
   contentType_of (mkEvent (<[k := v]> h) text b64) =
     contentType_of (mkEvent h text b64) /\
   createSendMailHandler env config (mkEvent (<[k := v]> h) text b64) =
     createSendMailHandler env config (mkEvent h text b64)) /\
  (h !! "content-type" = None ->
   h !! "Content-Type" = None ->
   is_multipart (contentType_of (mkEvent h text b64)) = false /\
   extract_body env (mkEvent h text b64) =
     of_sum (JSON_parse env (with_default EmptyString text))).
Proof.
  assert (Hsame : forall h1 h2 : gmap string string,
            h1 !! "content-type" = h2 !! "content-type" ->
            h1 !! "Content-Type" = h2 !! "Content-Type" ->
            contentType_of (mkEvent h1 text b64) =
              contentType_of (mkEvent h2 text b64)).
  { intros h1 h2 H1 H2. unfold contentType_of. simpl. rewrite H1, H2.
    reflexivity. }
  assert (Hrun : forall h1 h2 : gmap string string,
            h1 !! "content-type" = h2 !! "content-type" ->
            h1 !! "Content-Type" = h2 !! "Content-Type" ->
            createSendMailHandler env config (mkEvent h1 text b64) =
              createSendMailHandler env config (mkEvent h2 text b64)).
  { intros h1 h2 H1 H2.
    apply handler_reads_route; try reflexivity;
      rewrite (Hsame h1 h2 H1 H2); reflexivity. }
  split; [| split; [| split; [| split; [| split]]]].
  - intros Hl Hu lower upper.
    assert (Hlo : contentType_of lower =
                  if string_truthy v then Some v else None).
    { unfold contentType_of, lower; simpl.
      rewrite lookup_insert_eq, lookup_insert_ne by discriminate.
      rewrite Hu. reflexivity. }
    assert (Hup : contentType_of upper = Some v).
    { unfold contentType_of, upper; simpl.
      rewrite lookup_insert_ne by discriminate.
      rewrite lookup_insert_eq, Hl. reflexivity. }
    assert (Hroute : is_multipart (contentType_of lower) =
                     is_multipart (contentType_of upper)).
    { rewrite Hlo, Hup. destruct v; reflexivity. }
    split; [exact Hroute |]. split.
    + rewrite Hlo. destruct v; reflexivity.
    + apply handler_reads_route; try reflexivity; [exact Hroute |].
      rewrite Hlo, Hup. destruct v; [discriminate | reflexivity].
  - intros Hv Htruthy.
    assert (Hct : contentType_of (mkEvent h text b64) = Some v).
    { unfold contentType_of. simpl. rewrite Hv. simpl. rewrite Htruthy.
      reflexivity. }
    split; [exact Hct |]. rewrite Hct. simpl. rewrite Htruthy. reflexivity.
  - intros Hempty. unfold contentType_of. simpl.
    destruct (h !! "content-type") as [[| c s] |]; simpl in *;
      [reflexivity | discriminate | reflexivity].
  - apply Hrun.
  - intros Hk1 Hk2.
    assert (H1 : <[k := v]> h !! "content-type" = h !! "content-type")
      by (apply lookup_insert_ne; exact Hk1).
    assert (H2 : <[k := v]> h !! "Content-Type" = h !! "Content-Type")
      by (apply lookup_insert_ne; exact Hk2).
    split; [apply Hsame | apply Hrun]; assumption.
  - intros Hl Hu.
    assert (Hct : contentType_of (mkEvent h text b64) = None).
    { unfold contentType_of. simpl. rewrite Hl, Hu. reflexivity. }
    unfold extract_body. rewrite Hct. split; reflexivity.
Qed.

Lemma content_type_two_spellings_witness :
  let env := Sample.world (ResponseText Sample.success_true) None in
  let text := Some (Sample.form_text Sample.jane []) in
  let run h := createSendMailHandler env Sample.live_config (mkEvent h text false) in
  let both : gmap string string :=
    <["content-type" := Sample.form_type]> Sample.json_headers in
  run (<["content-type" := Sample.form_type]> ∅) =
    run (<["Content-Type" := Sample.form_type]> ∅) /\
  contentType_of (mkEvent both text false) = Some Sample.form_type /\
  contentType_of (mkEvent Sample.json_headers text false) =
    Sample.json_headers !! "Content-Type" /\
  run (<["CONTENT-TYPE" := Sample.form_type]> Sample.json_headers) =
    run Sample.json_headers /\
  is_multipart
    (contentType_of (mkEvent {[ "CONTENT-TYPE" := Sample.form_type ]} text false))
    = false.
Proof.
  intros env text run both.
  split; [| split; [| split; [| split]]].
  - refine (proj2 (proj2 (proj1 (content_type_two_spellings env Sample.live_config
                     ∅ ∅ EmptyString Sample.form_type text false) _ _)));
      reflexivity.
  - refine (proj1 (proj1 (proj2 (content_type_two_spellings env Sample.live_config
                     both ∅ EmptyString Sample.form_type text false)) _ _));
      reflexivity.
  - refine (proj1 (proj2 (proj2 (content_type_two_spellings env Sample.live_config
                     Sample.json_headers ∅ EmptyString EmptyString text false))) _);
      reflexivity.
  - refine (proj2 (proj1 (proj2 (proj2 (proj2 (proj2
              (content_type_two_spellings env Sample.live_config
                 Sample.json_headers ∅ "CONTENT-TYPE" Sample.form_type
                 text false))))) _ _));
      discriminate.
  - refine (proj1 (proj2 (proj2 (proj2 (proj2 (proj2
              (content_type_two_spellings env Sample.live_config
                 {[ "CONTENT-TYPE" := Sample.form_type ]} ∅ EmptyString
                 EmptyString text false))))) _ _));
      reflexivity.
Defined.

(** C3, as stated, fails: the lookup is by exact key.  The same
    multipart form is routed to the multipart parser when its content type
    is stored under [content-type] or [Content-Type], and to [JSON.parse]
    (which rejects it: status 500 instead of 200) under [CONTENT-TYPE] or
    [Content-type]. *)
Lemma content_type_lookup_is_case_sensitive :
  let env := Sample.world (ResponseText Sample.success_true) None in
  let route key :=
    is_multipart (contentType_of (Sample.form_event key Sample.jane [])) in
  let status key :=
    status_of (createSendMailHandler env Sample.test_config
                 (Sample.form_event key Sample.jane [])) in
  route "content-type" = true /\ route "Content-Type" = true /\
  route "CONTENT-TYPE" = false /\ route "Content-type" = false /\
  status "content-type" = Some 200 /\ status "CONTENT-TYPE" = Some 500.
Proof. repeat split; vm_compute; reflexivity. Qed.

(** ** Validation *)

(** [first_missing] finds the first name, in the order of the list, that
    the object does not define, whenever there is one. *)
Lemma first_missing_first names props f :
  In f names -> get_own props f = JUndefined ->
  exists before k after,
    names = before ++ k :: after /\
    Forall (fun x => get_own props x <> JUndefined) before /\
    get_own props k = JUndefined /\
    first_missing names props = Some k.
Proof.
  induction names as [| n names IH]; intros Hin Hf; [contradiction |].
  destruct (get_own props n) eqn:Hn.
  1: { exists [], n, names. simpl. rewrite Hn. repeat split; auto. }
  all: destruct Hin as [-> | Hin]; [congruence |].
  all: destruct (IH Hin Hf) as (before & k & after & -> & Hb & Hk & Hm).
  all: exists (n :: before), k, after; simpl; rewrite Hn.
  all: repeat split; auto; constructor; auto; congruence.
Qed.

Lemma first_missing_none names props k :
  first_missing names props = None -> In k names ->
  get_own props k <> JUndefined.
Proof.
  induction names as [| n names IH]; simpl; [contradiction |].
  intros Hm [-> | Hin].
  - destruct (get_own props k); congruence.
  - destruct (get_own props n); try discriminate; auto.
Qed.

Lemma required_message_pattern k :
  includes "required property" (required_message k) = true.
Proof.
  change (required_message k)
    with ("must have " +:+ "required property" +:+ (" '" +:+ k +:+ "'")).
  apply includes_app.
Qed.

(** An object that lacks a required property fails validation with the
    error of the first one it lacks. *)
Lemma validate_missing env props k :
  first_missing (required schema) props = Some k ->
  validate env (JObj props) = mkValidation false (Some [required_error k]).
Proof.
  intros H. unfold validate, compile, first_error.
  simpl has_type. simpl negb. cbv iota. unfold props_of. rewrite H. reflexivity.
Qed.

(** C5, as the code has it: a payload that is an object and lacks one of
    the five required properties is answered with status 400, and the
    [message] of the body (repeated as its [error]) is Ajv's
    [must have required property 'k'] for the first [k], in the order of
    the schema's [required] array, that the payload lacks: every name
    before [k] is present.  Nothing is verified, sent or logged.  A payload
    that is no object is answered with status 400 too, but with the message
    [must be object], which names no property. *)
Theorem missing_required_field_is_400 env config event payload :
  result (extract_body env event) = Ret payload ->
  (forall props f,
     payload = JObj props ->
     In f (required schema) ->
     get_own props f = JUndefined ->
     exists before k after resp,
       required schema = before ++ k :: after /\
       Forall (fun x => get_own props x <> JUndefined) before /\
       get_own props k = JUndefined /\
       createSendMailHandler env config event = (Ret resp, []) /\
       statusCode resp = 400 /\
       headers resp = fixed_headers /\
       body resp =
         error_body_text ("must have required property '" +:+ k +:+ "'")
                         ("must have required property '" +:+ k +:+ "'") /\
       includes "required property" (body resp) = true) /\
  (has_type "object" payload = false ->
   exists resp,
     createSendMailHandler env config event = (Ret resp, []) /\
     statusCode resp = 400 /\
     headers resp = fixed_headers /\
     body resp = error_body_text "must be object" "must be object" /\
     includes "required property" (body resp) = false).
Proof.
  intros Hbody. split.
  - intros props f -> Hin Hf.
    destruct (first_missing_first _ _ _ Hin Hf)
      as (before & k & after & Hsplit & Hbefore & Hk & Hfirst).
    exists before, k, after,
      (buildErrorResponse (new_Error (required_message k))
         (required_message k) (Some 400)).
    split; [exact Hsplit |]. split; [exact Hbefore |]. split; [exact Hk |].
    split.
    { assert (Hh : handle env config event =
                   ret (buildErrorResponse (new_Error (required_message k))
                          (required_message k) (Some 400))).
      { rewrite (handle_extracted env config event _ Hbody). unfold process.
        rewrite (validate_missing env props k Hfirst). reflexivity. }
      unfold createSendMailHandler. rewrite Hh. reflexivity. }
    assert (Hreq : In k (required schema)).
    { rewrite Hsplit. apply in_or_app. right. left. reflexivity. }
    simpl in Hreq.
    destruct Hreq as [<- | [<- | [<- | [<- | [<- | []]]]]];
      (split; [reflexivity |]); (split; [reflexivity |]);
      (split; [reflexivity | vm_compute; reflexivity]).
  - intros Htype.
    exists (buildErrorResponse (new_Error must_be_object) must_be_object
              (Some 400)).
    split.
    { assert (Hv : validate env payload =
                   mkValidation false (Some [type_error EmptyString "object"])).
      { unfold validate, compile, first_error. simpl schema_type.
        rewrite Htype. reflexivity. }
      unfold createSendMailHandler.
      rewrite (handle_extracted env config event _ Hbody). unfold process.
      rewrite Hv. reflexivity. }
    split; [reflexivity |]. split; [reflexivity |].
    split; [reflexivity | vm_compute; reflexivity].
Qed.

Lemma missing_required_field_is_400_witness :
  let env := Sample.world (ResponseText Sample.success_true) None in
  let event := Sample.json_event (Some (Sample.json_text Sample.anonymous)) in
  let props := props_of (Sample.as_object Sample.anonymous) in
  result (extract_body env event) = Ret (JObj props) /\
  exists before k after resp,
    required schema = before ++ k :: after /\
    Forall (fun x => get_own props x <> JUndefined) before /\
    get_own props k = JUndefined /\
    createSendMailHandler env Sample.live_config event = (Ret resp, []) /\
    statusCode resp = 400 /\
    headers resp = fixed_headers /\
    body resp =
      error_body_text ("must have required property '" +:+ k +:+ "'")
                      ("must have required property '" +:+ k +:+ "'") /\
    includes "required property" (body resp) = true.
Proof.
  intros env event props.
  assert (Hbody : result (extract_body env event) = Ret (JObj props))
    by (vm_compute; reflexivity).
  split; [exact Hbody |].
  refine (proj1 (missing_required_field_is_400 env Sample.live_config event
                   (JObj props) Hbody) props "name" eq_refl _ _).
  - left; reflexivity.
  - vm_compute; reflexivity.
Defined.

(** C5, as stated, fails.  The JSON bodies [null] and [[]] are payloads
    with none of the five required fields; each is answered with status
    400, but the message is [must be object] and the body does not contain
    [required property]. *)
Lemma no_fields_without_required_property_message :
  let env := Cases.world (ResponseText Sample.success_true) None in
  let run text :=
    createSendMailHandler env Sample.live_config (Sample.json_event (Some text)) in
  let answer :=
    {| statusCode := 400;
       headers := fixed_headers;
       body := error_body_text "must be object" "must be object" |} in
  result (extract_body env (Sample.json_event (Some "null"))) = Ret JNull /\
  result (extract_body env (Sample.json_event (Some "[]"))) = Ret (JArr []) /\
  run "null" = (Ret answer, []) /\
  run "[]" = (Ret answer, []) /\
  includes "required property" (body answer) = false.
Proof.
  split; [vm_compute; reflexivity |]. split; [vm_compute; reflexivity |].
  split; [vm_compute; reflexivity |]. split; vm_compute; reflexivity.
Qed.

(** ** Skipping the verification *)

(** Every call of [verifyRecaptchaToken] starts with one of them, so a
    trace without them is a run that never called it. *)
Lemma verifyRecaptchaToken_leaves_event env token secret :
  exists ev rest,
    trace (verifyRecaptchaToken env token secret) = ev :: rest /\
    verification_event ev = true.
Proof.
  unfold verifyRecaptchaToken. destruct secret as [[| c s] |].
  - exists (ConsoleWarn no_secret_warning), []. split; reflexivity.
  - eexists _, _. rewrite trace_bind. simpl. split; reflexivity.
  - exists (ConsoleWarn no_secret_warning), []. split; reflexivity.
Qed.

(** C6: with [skipRecaptcha] on, no run of the handler contains an event
    of the verification: neither the request to the endpoint nor the
    warning of the verifier, whatever the payload and its [recaptcha]
    field. *)
Theorem skip_recaptcha_never_verifies env config event :
  flag (skipRecaptcha config) = true ->
  Forall (fun ev => verification_event ev = false)
         (trace (createSendMailHandler env config event)).
Proof.
  intros Hskip. apply handler_events.
  - reflexivity.
  - rewrite Hskip. discriminate.
  - destruct (flag (disableSend config)); reflexivity.
Qed.

Lemma skip_recaptcha_never_verifies_witness :
  flag (skipRecaptcha Sample.test_config) = true /\
  Forall (fun ev => verification_event ev = false)
         (trace (createSendMailHandler
                   (Sample.world (ResponseText Sample.success_false) None)
                   Sample.test_config
                   (Sample.json_event (Some (Sample.json_text Sample.jane))))).
Proof.
  split; [reflexivity |].
  apply (skip_recaptcha_never_verifies
           (Sample.world (ResponseText Sample.success_false) None)
           Sample.test_config
           (Sample.json_event (Some (Sample.json_text Sample.jane)))).
  reflexivity.
Defined.

(** ** The outgoing mail *)

Lemma get_prop_defined v k :
  is_nullish v = false -> get_prop v k = ret (prop_of v k).
Proof. destruct v; simpl; try discriminate; reflexivity. Qed.

Lemma attachment_of_defined file :
  is_nullish file = false -> attachment_of file = ret (attachment file).
Proof.
  intros H. unfold attachment_of.
  rewrite !(get_prop_defined _ _ H), !bind_ret_l. reflexivity.
Qed.

Lemma mapM_attachment_of items :
  forallb (fun file => negb (is_nullish file)) items = true ->
  mapM attachment_of items = ret (map attachment items).
Proof.
  induction items as [| file items IH]; simpl; [reflexivity |].
  intros H. apply andb_true_iff in H as [Hfile Hrest].
  apply negb_true_iff in Hfile.
  rewrite (attachment_of_defined _ Hfile), (IH Hrest), !bind_ret_l.
  reflexivity.
Qed.

(** The mail built from a payload with well-formed files. *)
Lemma build_mailOptions_well_formed config props :
  files_well_formed props = true ->
  build_mailOptions config (JObj props) =
    ret {| from := senderEmail config;
           to := recipientEmail config;
           subject := get_own props "subject";
           text := get_own props "message";
           replyTo := get_own props "email";
           attachments := attachments_of (get_own props "files") |}.
Proof.
  unfold files_well_formed, build_mailOptions, get_prop. intros H.
  rewrite !bind_ret_l.
  destruct (get_own props "files") as [| | b | n | s | bytes | items | o];
    simpl in H |- *; try discriminate;
    try (apply negb_true_iff in H; rewrite H); try reflexivity.
  rewrite (mapM_attachment_of items H), !bind_ret_l. reflexivity.
Qed.

(** A payload that passes validation defines the five required
    properties, as strings. *)
Lemma check_properties_none fmt decls props k ps :
  check_properties fmt decls props = None ->
  In (k, ps) decls ->
  get_own props k <> JUndefined ->
  has_type (prop_type ps) (get_own props k) = true.
Proof.
  induction decls as [| [k' ps'] decls IH]; cbn [check_properties In];
    [contradiction |].
  intros H [Heq | Hin] Hdef.
  - injection Heq as -> ->.
    destruct (get_own props k) eqn:E; [congruence | ..];
      unfold check_property in H;
      (destruct (has_type (prop_type ps) _); [reflexivity | discriminate]).
  - apply IH; auto.
    destruct (get_own props k'); auto;
      match type of H with
      | context [check_property ?f ?a ?b ?c] =>
          destruct (check_property f a b c); auto; discriminate
      end.
Qed.

Lemma valid_strings env props k :
  valid (validate env (JObj props)) = true ->
  In k (required schema) ->
  exists s, get_own props k = JStr s.
Proof.
  unfold validate, compile, first_error. simpl has_type. simpl negb. cbv iota.
  unfold props_of.
  destruct (first_missing (required schema) props) eqn:Hmiss; [discriminate |].
  destruct (check_properties _ (properties schema) props) eqn:Hprops;
    [discriminate |].
  intros _ Hin.
  pose proof (first_missing_none _ _ _ Hmiss Hin) as Hdef.
  assert (Hdecl : exists ps, In (k, ps) (properties schema) /\
                             prop_type ps = "string").
  { simpl in Hin.
    destruct Hin as [<- | [<- | [<- | [<- | [<- | []]]]]];
      eexists; (split; [simpl; eauto 6 | reflexivity]). }
  destruct Hdecl as (ps & Hps & Hty).
  pose proof (check_properties_none _ _ _ _ _ Hprops Hps Hdef) as Htype.
  rewrite Hty in Htype.
  destruct (get_own props k); try discriminate. eauto.
Qed.

Lemma attachment_of_nullish file :
  is_nullish file = true -> exists e, attachment_of file = throw e.
Proof.
  destruct file; try discriminate; intros _; eexists; reflexivity.
Qed.

Lemma mapM_attachment_of_throws items :
  forallb (fun file => negb (is_nullish file)) items = false ->
  exists e, mapM attachment_of items = throw e.
Proof.
  induction items as [| file items IH]; simpl; [discriminate |].
  intros H. destruct (is_nullish file) eqn:Hfile.
  - destruct (attachment_of_nullish file Hfile) as [e ->]. exists e. reflexivity.
  - rewrite (attachment_of_defined file Hfile), bind_ret_l.
    destruct (IH H) as [e ->]. exists e. reflexivity.
Qed.

(** With ill-formed files no mail is built: the [try] block throws. *)
Lemma build_mailOptions_ill_formed config props :
  files_well_formed props = false ->
  exists e, build_mailOptions config (JObj props) = throw e.
Proof.
  unfold files_well_formed, build_mailOptions, get_prop. intros H.
  rewrite !bind_ret_l.
  destruct (get_own props "files") as [| | b | n | s | bytes | items | o];
    simpl in H |- *; try discriminate;
    try (apply negb_false_iff in H; rewrite H); try (eexists; reflexivity).
  destruct (mapM_attachment_of_throws items H) as [e ->].
  exists e. reflexivity.
Qed.

Lemma attachment_of_nullish_TypeError file :
  is_nullish file = true ->
  exists e, attachment_of file = throw e /\ err_name e = "TypeError".
Proof.
  destruct file; try discriminate; intros _; eexists; split; reflexivity.
Qed.

Lemma mapM_attachment_of_TypeError items :
  forallb (fun file => negb (is_nullish file)) items = false ->
  exists e, mapM attachment_of items = throw e /\ err_name e = "TypeError".
Proof.
  induction items as [| file items IH]; simpl; [discriminate |].
  intros H. destruct (is_nullish file) eqn:Hfile.
  - destruct (attachment_of_nullish_TypeError file Hfile) as (e & -> & He).
    exists e. split; [reflexivity | exact He].
  - rewrite (attachment_of_defined file Hfile), bind_ret_l.
    destruct (IH H) as (e & -> & He). exists e. split; [reflexivity | exact He].
Qed.

(** With ill-formed files building the mail throws a [TypeError]. *)
Lemma build_mailOptions_TypeError config props :
  files_well_formed props = false ->
  exists e,
    build_mailOptions config (JObj props) = throw e /\
    err_name e = "TypeError".
Proof.
  unfold files_well_formed, build_mailOptions, get_prop. intros H.
  rewrite !bind_ret_l.
  destruct (get_own props "files") as [| | b | n | s | bytes | items | o];
    simpl in H |- *; try discriminate;
    try (apply negb_false_iff in H; rewrite H);
    try (eexists; split; reflexivity).
  destruct (mapM_attachment_of_TypeError items H) as (e & -> & He).
  exists e. split; [reflexivity | exact He].
Qed.

(** C8, as the code has it: for a payload that passed validation and
    whose [files] is falsy or an array without [null] elements, the handler
    builds a mail whose sender and recipient are the configured addresses,
    whose subject, text and reply-to are the payload's [subject], [message]
    and [email] (all strings), and whose attachments, when [files] is an
    array, are one per file, in order, each an object with exactly the
    file's [filename] and [content]: no content type; with sending enabled
    this mail is the one handed to the transport.  For a validated payload
    whose [files] is anything else no mail is built: building it throws a
    [TypeError], and the dispatch ends in that fault without a call of the
    transport. *)
Theorem mail_options_from_payload env config props :
  valid (validate env (JObj props)) = true ->
  (files_well_formed props = true ->
   exists mail,
     build_mailOptions config (JObj props) = ret mail /\
     from mail = senderEmail config /\
     to mail = recipientEmail config /\
     subject mail = get_own props "subject" /\
     text mail = get_own props "message" /\
     replyTo mail = get_own props "email" /\
     (exists s t r,
        subject mail = JStr s /\ text mail = JStr t /\ replyTo mail = JStr r) /\
     (forall items, get_own props "files" = JArr items ->
        exists atts,
          attachments mail = Some atts /\
          length atts = length items /\
          forall (i : nat) file, items !! i = Some file ->
            atts !! i =
              Some (JObj [("filename", prop_of file "filename");
                          ("content", prop_of file "content")]) /\
            forall att, atts !! i = Some att ->
              prop_of att "contentType" = JUndefined) /\
     (truthy (get_own props "files") = false -> attachments mail = None) /\
     (flag (disableSend config) = false ->
      trace (dispatch env config (JObj props)) =
        [SendMail (or_default (region config) "us-west-2") mail])) /\
  (files_well_formed props = false ->
   exists e,
     build_mailOptions config (JObj props) = throw e /\
     err_name e = "TypeError" /\
     dispatch env config (JObj props) = throw e).
Proof.
  intros Hvalid. split.
  - intros Hfiles. eexists.
    split; [apply build_mailOptions_well_formed, Hfiles |].
    simpl. repeat (split; [reflexivity |]).
    split; [| split; [| split]].
    + destruct (valid_strings env props "subject" Hvalid) as [s Hs];
        [simpl; auto 6 |].
      destruct (valid_strings env props "message" Hvalid) as [t Ht];
        [simpl; auto 6 |].
      destruct (valid_strings env props "email" Hvalid) as [r Hr];
        [simpl; auto 6 |].
      exists s, t, r. auto.
    + intros items Hitems. rewrite Hitems. simpl.
      eexists. split; [reflexivity |]. split; [apply length_map |].
      intros i file Hi.
      assert (Hatt : map attachment items !! i = Some (attachment file))
        by (rewrite list_lookup_fmap, Hi; reflexivity).
      split; [exact Hatt |].
      intros att Hatt'. rewrite Hatt in Hatt'. injection Hatt' as <-.
      reflexivity.
    + intros Hfalsy. destruct (get_own props "files"); try reflexivity.
      discriminate.
    + intros Hsend. unfold dispatch.
      rewrite (build_mailOptions_well_formed config props Hfiles), bind_ret_l.
      rewrite Hsend. destruct (sendMail env _ _); reflexivity.
  - intros Hfiles.
    destruct (build_mailOptions_TypeError config props Hfiles) as (e & He & Hn).
    exists e. split; [exact He |]. split; [exact Hn |].
    unfold dispatch. rewrite He. reflexivity.
Qed.

Lemma mail_options_from_payload_witness :
  let env := Untyped.world (ResponseText Sample.success_true) None in
  let hello := JBuffer (list_byte_of_string "hello") in
  let props :=
    [("files", JArr [JObj [("filename", JStr "x.txt");
                           ("contentType", JStr "text/plain");
                           ("content", hello)]]);
     ("name", JStr "Jane Doe"); ("email", JStr "jane@example.com");
     ("subject", JStr "Hi"); ("message", JStr "hey");
     ("recaptcha", JStr "tok")] in
  let mail :=
    {| from := "no-reply@example.com";
       to := "hello@example.com";
       subject := JStr "Hi";
       text := JStr "hey";
       replyTo := JStr "jane@example.com";
       attachments :=
         Some [JObj [("filename", JStr "x.txt"); ("content", hello)]] |} in
  extractMultipart env (Sample.form_event "content-type" Sample.jane [Sample.x_txt])
    = ret (JObj props) /\
  valid (validate env (JObj props)) = true /\
  files_well_formed props = true /\
  build_mailOptions Sample.live_config (JObj props) = ret mail /\
  trace (dispatch env Sample.live_config (JObj props)) =
    [SendMail "us-west-2" mail] /\
  valid (validate env (JObj Untyped.files_null_props)) = true /\
  files_well_formed Untyped.files_null_props = false /\
  exists e,
    dispatch env Sample.live_config (JObj Untyped.files_null_props) = throw e /\
    err_name e = "TypeError".
Proof.
  intros env hello props mail.
  assert (Hvalid : valid (validate env (JObj props)) = true)
    by (vm_compute; reflexivity).
  assert (Hwf : files_well_formed props = true) by (vm_compute; reflexivity).
  assert (Hvalid' : valid (validate env (JObj Untyped.files_null_props)) = true)
    by (vm_compute; reflexivity).
  assert (Hill : files_well_formed Untyped.files_null_props = false)
    by (vm_compute; reflexivity).
  split; [vm_compute; reflexivity |].
  split; [exact Hvalid |]. split; [exact Hwf |].
  destruct (proj1 (mail_options_from_payload env Sample.live_config props Hvalid)
              Hwf)
    as (mail' & Hbuild & _ & _ & _ & _ & _ & _ & _ & _ & Hsent).
  assert (Hmail : mail' = mail).
  { vm_compute in Hbuild. injection Hbuild as <-. reflexivity. }
  subst mail'.
  split; [exact Hbuild |]. split; [apply Hsent; reflexivity |].
  split; [exact Hvalid' |]. split; [exact Hill |].
  destruct (proj2 (mail_options_from_payload env Sample.live_config
                     Untyped.files_null_props Hvalid') Hill)
    as (e & _ & Hname & Hdispatch).
  exists e. split; [exact Hdispatch | exact Hname].
Defined.

(** C8, as stated, fails.  Validation does not look at [files]: the JSON
    bodies of [Sample.jane] with a [files] that is the string [x], and with
    a [files] that is the array [[null]], pass validation and the captcha
    stage, yet the handler builds no mail for them: it throws a
    [TypeError], answers with status 500 and never calls the transport,
    which would have accepted the mail. *)
Lemma validated_payload_without_mail :
  let env := Untyped.world (ResponseText Sample.success_true) None in
  let check text props :=
    result (extract_body env (Sample.json_event (Some text))) = Ret (JObj props) /\
    valid (validate env (JObj props)) = true /\
    (exists e,
       build_mailOptions Sample.live_config (JObj props) = throw e /\
       err_name e = "TypeError") /\
    status_of (createSendMailHandler env Sample.live_config
                 (Sample.json_event (Some text))) = Some 500 /\
    Forall (fun ev => is_SendMail ev = false)
           (trace (createSendMailHandler env Sample.live_config
                     (Sample.json_event (Some text)))) in
  check Untyped.files_string_text
        (props_of (Sample.as_object Sample.jane_with_files_field)) /\
  check Untyped.files_null_text Untyped.files_null_props.
Proof.
  split; (split; [vm_compute; reflexivity |]);
    (split; [vm_compute; reflexivity |]);
    (split; [eexists; split; vm_compute; reflexivity |]);
    (split; [vm_compute; reflexivity |]);
    vm_compute; repeat constructor.
Qed.

(** ** Sending disabled *)

Lemma dispatch_disabled env config props :
  flag (disableSend config) = true ->
  files_well_formed props = true ->
  dispatch env config (JObj props) =
    (Ret (buildSuccessResponse "Mail sent successfully" None),
     [ConsoleWarn send_disabled_warning]).
Proof.
  intros Hoff Hfiles. unfold dispatch.
  rewrite (build_mailOptions_well_formed config props Hfiles), bind_ret_l.
  rewrite Hoff. reflexivity.
Qed.

(** C7: with [disableSend] on, no run of the handler calls the mail
    transport, and a fully valid payload (one that passes the schema, has
    well-formed files and passes the captcha stage) gets status 200 with
    the body [{"message":"Mail sent successfully"}]. *)
Theorem disabled_send_succeeds_without_sending env config event :
  flag (disableSend config) = true ->
  Forall (fun ev => is_SendMail ev = false)
         (trace (createSendMailHandler env config event)) /\
  forall props,
    result (extract_body env event) = Ret (JObj props) ->
    fully_valid env config props ->
    exists resp,
      result (createSendMailHandler env config event) = Ret resp /\
      resp = buildSuccessResponse "Mail sent successfully" None /\
      statusCode resp = 200 /\
      body resp = success_body.
Proof.
  intros Hoff. split.
  - apply handler_events.
    + reflexivity.
    + intros _. split; reflexivity.
    + rewrite Hoff. reflexivity.
  - intros props Hbody (Hvalid & Hfiles & Hpass).
    exists (buildSuccessResponse "Mail sent successfully" None).
    split; [| repeat split].
    assert (Hr : result (handle env config event) =
                 Ret (buildSuccessResponse "Mail sent successfully" None)).
    { rewrite (handle_extracted env config event _ Hbody). unfold process.
      rewrite Hvalid. simpl negb. cbv iota.
      destruct (flag (skipRecaptcha config)) eqn:Hskip; simpl negb; cbv iota.
      - rewrite (dispatch_disabled env config props Hoff Hfiles). reflexivity.
      - destruct Hpass as [Hskip' | (verified & Hver & Htruthy)];
          [congruence |].
        unfold get_prop. rewrite bind_ret_l, result_bind, Hver, Htruthy.
        simpl negb. cbv iota.
        rewrite (dispatch_disabled env config props Hoff Hfiles). reflexivity. }
    rewrite (handler_returned env config event _ Hr). exact Hr.
Qed.

Lemma disabled_send_succeeds_without_sending_witness :
  let env := Sample.world (ResponseText Sample.success_false) None in
  let event := Sample.json_event (Some (Sample.json_text Sample.jane)) in
  let props := props_of (Sample.as_object Sample.jane) in
  flag (disableSend Sample.test_config) = true /\
  result (extract_body env event) = Ret (JObj props) /\
  fully_valid env Sample.test_config props /\
  Forall (fun ev => is_SendMail ev = false)
         (trace (createSendMailHandler env Sample.test_config event)) /\
  exists resp,
    result (createSendMailHandler env Sample.test_config event) = Ret resp /\
    resp = buildSuccessResponse "Mail sent successfully" None /\
    statusCode resp = 200 /\
    body resp = success_body.
Proof.
  intros env event props.
  assert (Hoff : flag (disableSend Sample.test_config) = true) by reflexivity.
  assert (Hbody : result (extract_body env event) = Ret (JObj props))
    by (vm_compute; reflexivity).
  assert (Hfull : fully_valid env Sample.test_config props).
  { split; [vm_compute; reflexivity |].
    split; [vm_compute; reflexivity |]. left; reflexivity. }
  destruct (disabled_send_succeeds_without_sending env Sample.test_config event Hoff)
    as [Hnever Hok].
  split; [exact Hoff |]. split; [exact Hbody |]. split; [exact Hfull |].
  split; [exact Hnever |]. exact (Hok props Hbody Hfull).
Defined.

(** ** The files of a multipart payload *)

Lemma get_own_set_prop_eq k v props : get_own (set_prop k v props) k = v.
Proof.
  unfold get_own. induction props as [| [k' v'] props IH]; simpl.
  - rewrite String.eqb_refl. reflexivity.
  - destruct (String.eqb k k') eqn:E; simpl.
    + rewrite String.eqb_refl. reflexivity.
    + rewrite E. exact IH.
Qed.

Lemma get_own_set_prop_ne k k' v props :
  k <> k' -> get_own (set_prop k v props) k' = get_own props k'.
Proof.
  intros Hne. unfold get_own.
  induction props as [| [k0 v0] props IH]; simpl.
  - destruct (String.eqb k' k) eqn:E; [| reflexivity].
    apply String.eqb_eq in E. congruence.
  - destruct (String.eqb k k0) eqn:E; simpl.
    + apply String.eqb_eq in E. subst k0.
      destruct (String.eqb k' k) eqn:E'; [| reflexivity].
      apply String.eqb_eq in E'. congruence.
    + destruct (String.eqb k' k0); [reflexivity | exact IH].
Qed.

Lemma run_listeners_files parts : forall result files,
  forallb (fun part => negb (is_files_field part)) parts = true ->
  get_own result "files" = JArr files ->
  exists result',
    run_listeners parts result = ret result' /\
    get_own result' "files" = JArr (files ++ file_records parts).
Proof.
  induction parts as [| [fieldname value | info chunks] parts IH];
    intros result files Hparts Hfiles; simpl in Hparts |- *.
  - exists result. rewrite app_nil_r. auto.
  - apply andb_true_iff in Hparts as [Hname Hparts].
    apply negb_true_iff, String.eqb_neq in Hname.
    apply IH; [exact Hparts |].
    unfold on_field. destruct (String.eqb fieldname "__proto__"); [exact Hfiles |].
    rewrite get_own_set_prop_ne by exact Hname. exact Hfiles.
  - unfold on_file_end. rewrite Hfiles, bind_ret_l.
    destruct (IH (set_prop "files" (JArr (files ++ [file_record info chunks])) result)
                 (files ++ [file_record info chunks]) Hparts
                 (get_own_set_prop_eq _ _ _)) as (result' & Hrun & Hget).
    exists result'. split; [exact Hrun |].
    rewrite Hget, <- app_assoc. reflexivity.
Qed.

(** When no plain field of the form is called [files] and the parser
    closes, extraction succeeds and the payload's [files] is the array of
    the records of the file parts, in order: empty when there are none. *)
Lemma extractMultipart_files_array env event parts written :
  written =
    match ev_body event with
    | Some b =>
        if string_truthy b
        then Some (b, if isBase64Encoded event then base64 else binary)
        else None
    | None => None
    end ->
  busboy env (contentType_of event) written = (parts, Close) ->
  forallb (fun part => negb (is_files_field part)) parts = true ->
  exists props,
    extractMultipart env event = ret (JObj props) /\
    get_own props "files" = JArr (file_records parts).
Proof.
  intros -> Hparse Hparts. unfold extractMultipart. rewrite Hparse.
  destruct (run_listeners_files parts initial_result [] Hparts eq_refl)
    as (result' & Hrun & Hget).
  rewrite Hrun, bind_ret_l. eexists. split; [reflexivity |].
  rewrite get_own_set_prop_eq. exact Hget.
Qed.

(** C10 at a form with a plain field called [files]: extraction
    succeeds, but the payload's [files] is the field's text and not an
    array; the payload passes validation and verification, and building the
    attachments throws, so this valid submission gets status 500 and no
    mail. *)
Theorem field_named_files_replaces_the_array :
  let env := Sample.world (ResponseText Sample.success_true) None in
  let event :=
    Sample.form_event "content-type" Sample.jane_with_files_field [] in
  exists props,
    extractMultipart env event = ret (JObj props) /\
    get_own props "files" = JStr "x" /\
    valid (validate env (JObj props)) = true /\
    createSendMailHandler env Sample.live_config event =
      (Ret (buildErrorResponse (TypeError "body.files.map is not a function")
              generic_message (Some 500)),
       [HttpsRequest recaptcha_host recaptcha_path "secret=secret&response=tok";
        ConsoleError (TypeError "body.files.map is not a function")]).
Proof.
  eexists. split; [vm_compute; reflexivity |].
  repeat split; vm_compute; reflexivity.
Qed.

(** * Further properties *)

(** ** The paths of a run *)

Lemma bind_ext {A B} (m : M A) (k k' : A -> M B) :
  (forall a, k a = k' a) -> bind m k = bind m k'.
Proof.
  intros H. destruct m as [[a | e | e] t]; simpl; try reflexivity.
  rewrite H. reflexivity.
Qed.

Lemma bind_bind_ret {A B C} (m : M A) (f : A -> B) (k : B -> M C) :
  bind (bind m (fun a => ret (f a))) k = bind m (fun a => k (f a)).
Proof.
  destruct m as [[a | e | e] t]; simpl; try reflexivity.
  destruct (k (f a)) as [r t']. rewrite app_nil_r. reflexivity.
Qed.

(** The [try] block of a validated payload: the captcha stage, then the
    dispatch or the 400 response. *)
Lemma process_valid env config props :
  valid (validate env (JObj props)) = true ->
  process env config (JObj props) =
    let* ok := captcha_stage env config props in
    if ok then dispatch env config (JObj props) else ret recaptcha_response.
Proof.
  intros Hvalid. unfold process, captcha_stage. rewrite Hvalid.
  simpl negb. cbv iota.
  destruct (flag (skipRecaptcha config)); simpl negb; cbv iota.
  - rewrite bind_ret_l. reflexivity.
  - unfold get_prop. rewrite bind_ret_l, bind_bind_ret.
    apply bind_ext. intros verified. destruct (truthy verified); reflexivity.
Qed.

(** The verifier resolves or rejects; it emits the warning when there is
    no secret and the request otherwise. *)
Lemma verifyRecaptchaToken_cases env token secret :
  (or_default secret EmptyString = EmptyString /\
   verifyRecaptchaToken env token secret =
     (Ret (JBool true), [ConsoleWarn no_secret_warning])) \/
  (exists c s r,
     secret = Some (String c s) /\
     verifyRecaptchaToken env token secret =
       (r, [HttpsRequest recaptcha_host recaptcha_path
              (querystring_stringify env
                 [("secret", JStr (String c s)); ("response", token)])]) /\
     forall e, r <> Uncaught e).
Proof.
  unfold verifyRecaptchaToken. destruct secret as [[| c s] |].
  - left. split; reflexivity.
  - right. exists c, s. cbv zeta.
    destruct (https_request env _ _ _) as [err | data].
    + eexists. split; [reflexivity |]. split; [reflexivity | discriminate].
    + destruct (JSON_parse env data) as [err | json].
      * eexists. split; [reflexivity |]. split; [reflexivity | discriminate].
      * destruct json; eexists;
          (split; [reflexivity |]); (split; [reflexivity | discriminate]).
  - left. split; reflexivity.
Qed.

(** The traces of the captcha stage; it never throws out of a listener. *)
Lemma captcha_stage_cases env config props :
  (flag (skipRecaptcha config) = true /\
   captcha_stage env config props = ret true) \/
  (flag (skipRecaptcha config) = false /\
   or_default (recaptchaSecret config) EmptyString = EmptyString /\
   captcha_stage env config props =
     (Ret true, [ConsoleWarn no_secret_warning])) \/
  (flag (skipRecaptcha config) = false /\
   exists c s r,
     recaptchaSecret config = Some (String c s) /\
     captcha_stage env config props =
       (r, [HttpsRequest recaptcha_host recaptcha_path
              (recaptcha_postData env (String c s) props)]) /\
     forall e, r <> Uncaught e).
Proof.
  unfold captcha_stage. destruct (flag (skipRecaptcha config)); [left; auto |].
  right.
  destruct (verifyRecaptchaToken_cases env (get_own props "recaptcha")
              (recaptchaSecret config))
    as [[Hnone ->] | (c & s & r & Hsecret & -> & Hr)].
  - left. auto.
  - right. split; [reflexivity |]. exists c, s.
    destruct r as [v | e | e]; [| | destruct (Hr e eq_refl)];
      eexists; (split; [exact Hsecret |]);
      (split; [reflexivity | discriminate]).
Qed.

(** Every call of the handler goes one of the ways of [Run]. *)
Theorem handler_run env config event :
  Run env config event (createSendMailHandler env config event).
Proof.
  unfold createSendMailHandler, handle.
  pose proof (extract_body_trace env event) as Ht.
  destruct (extract_body env event) as [[body | e | e] t] eqn:Hx;
    simpl in Ht; subst t.
  2: { apply Run_extraction_fault. rewrite Hx. reflexivity. }
  2: { apply Run_listener_crash. rewrite Hx. reflexivity. }
  change (Ret body, @nil Event) with (ret body). rewrite bind_ret_l.
  assert (Hbody : result (extract_body env event) = Ret body)
    by (rewrite Hx; reflexivity).
  destruct (valid (validate env body)) eqn:Hvalid.
  2: { unfold process. rewrite Hvalid. apply Run_invalid; assumption. }
  destruct (valid_is_object env body Hvalid) as [props ->].
  rewrite (process_valid env config props Hvalid).
  destruct (captcha_stage env config props) as [[ok | e | e] tc] eqn:Hc.
  - destruct ok.
    + unfold bind at 1. unfold dispatch.
      destruct (files_well_formed props) eqn:Hfiles.
      * pose proof (build_mailOptions_well_formed config props Hfiles) as Hm.
        rewrite Hm, bind_ret_l.
        destruct (flag (disableSend config)) eqn:Hoff.
        -- eapply Run_send_disabled; eassumption.
        -- fold (ses_region config).
           destruct (sendMail env (ses_region config) _) eqn:Hsend.
           ++ simpl. rewrite <- app_assoc.
              eapply Run_send_fault; eassumption.
           ++ eapply Run_sent; eassumption.
      * destruct (build_mailOptions_ill_formed config props Hfiles) as [err Hm].
        rewrite Hm. simpl. rewrite app_nil_r.
        eapply Run_attachments_fault; eassumption.
    + simpl. rewrite app_nil_r. eapply Run_verification_failed; eassumption.
  - simpl. eapply Run_verification_fault; eassumption.
  - destruct (captcha_stage_cases env config props)
      as [[_ H] | [(_ & _ & H) | (_ & c & s & r & _ & H & Hr)]];
      rewrite H in Hc; try discriminate.
    injection Hc as -> _. destruct (Hr e eq_refl).
Qed.

(** The captcha stage emits nothing, the warning of the missing secret,
    or the one request to the verification endpoint. *)
Lemma captcha_stage_trace env config props :
  trace (captcha_stage env config props) = [] \/
  trace (captcha_stage env config props) = [ConsoleWarn no_secret_warning] \/
  exists d,
    trace (captcha_stage env config props) =
      [HttpsRequest recaptcha_host recaptcha_path d].
Proof.
  destruct (captcha_stage_cases env config props)
    as [[_ ->] | [(_ & _ & ->) | (_ & c & s & r & _ & -> & _)]]; eauto.
Qed.

Ltac captcha_trace env config props tc Hc :=
  let H := fresh "Htc" in
  pose proof (captcha_stage_trace env config props) as H;
  rewrite Hc in H; simpl in H;
  destruct H as [-> | [-> | [? ->]]].

(** X1: every answer of the handler is one of three kinds, all with the
    two fixed headers: status 200 with the body
    [{"message":"Mail sent successfully"}]; status 400 with a body of a
    [message] and an [error]; or status 500 with the generic message and
    the text of a fault as [error]. *)
Theorem every_answer_is_200_400_or_500 env config event resp :
  result (createSendMailHandler env config event) = Ret resp ->
  headers resp = fixed_headers /\
  ((statusCode resp = 200 /\ body resp = success_body) \/
   (statusCode resp = 400 /\
    exists m e,
      body resp = JSON_stringify_record [("message", m); ("error", e)]) \/
   (statusCode resp = 500 /\
    exists e,
      body resp =
        generic_error_prefix +:+ JSON_quote (err_message e) +:+ "}")).
Proof.
  pose proof (handler_run env config event) as Hrun.
  remember (createSendMailHandler env config event) as run eqn:Erun.
  intros Hresp.
  destruct Hrun; simpl in Hresp; try discriminate;
    injection Hresp as <-; (split; [reflexivity |]).
  - right. right. split; [reflexivity |]. exists e. reflexivity.
  - right. left. split; [reflexivity |]. eexists _, _. reflexivity.
  - right. right. split; [reflexivity |]. exists e. reflexivity.
  - right. left. split; [reflexivity |]. eexists _, _. reflexivity.
  - right. right. split; [reflexivity |]. exists e. reflexivity.
  - left. split; reflexivity.
  - left. split; reflexivity.
  - right. right. split; [reflexivity |]. exists e. reflexivity.
Qed.

Lemma captcha_stage_quiet env config props r tc :
  captcha_stage env config props = (r, tc) ->
  Forall (fun ev => is_ConsoleError ev = false) tc /\
  Forall (fun ev => is_SendMail ev = false) tc.
Proof.
  intros Hc. pose proof (captcha_stage_trace env config props) as H.
  rewrite Hc in H. simpl in H.
  destruct H as [-> | [-> | [d ->]]]; split; repeat constructor.
Qed.

(** A run either ends in the [catch], which logs the fault last, or logs
    no fault and answers 200 or 400. *)
Lemma run_logged env config event run resp :
  Run env config event run ->
  result run = Ret resp ->
  (exists e t,
     run = (Ret (buildErrorResponse e generic_message (Some 500)),
            t ++ [ConsoleError e]) /\
     Forall (fun ev => is_ConsoleError ev = false) t) \/
  (statusCode resp <> 500 /\
   Forall (fun ev => is_ConsoleError ev = false) (trace run)).
Proof.
  intros Hrun Hresp.
  destruct Hrun; simpl in Hresp; try discriminate; injection Hresp as <-;
    try match goal with
        | H : captcha_stage _ _ _ = _ |- _ =>
            destruct (captcha_stage_quiet _ _ _ _ _ H) as [Hq _]
        end.
  - left. exists e, []. split; [reflexivity | constructor].
  - right. split; [discriminate | constructor].
  - left. exists e, tc. split; [reflexivity | exact Hq].
  - right. split; [discriminate | exact Hq].
  - left. exists e, tc. split; [reflexivity | exact Hq].
  - right. split; [discriminate |]. simpl. apply Forall_app. split; [exact Hq |].
    repeat constructor.
  - right. split; [discriminate |]. simpl. apply Forall_app. split; [exact Hq |].
    repeat constructor.
  - left. exists e, (tc ++ [SendMail (ses_region config) mail]).
    split; [rewrite <- app_assoc; reflexivity |].
    apply Forall_app. split; [exact Hq | repeat constructor].
Qed.

Lemma not_logged_not_in t e :
  Forall (fun ev => is_ConsoleError ev = false) t -> ~ In (ConsoleError e) t.
Proof.
  intros H Hin. rewrite List.Forall_forall in H. specialize (H _ Hin).
  discriminate.
Qed.

(** X2: a 500 is always logged and nothing else is: the response has
    status 500 exactly when the trace holds a [console.error], and then that
    is the last event, it is the only one, and the [error] of the response
    is the message of the logged fault. *)
Theorem status_500_iff_logged env config event resp :
  result (createSendMailHandler env config event) = Ret resp ->
  (statusCode resp = 500 <->
   exists e, In (ConsoleError e) (trace (createSendMailHandler env config event))) /\
  (forall e,
     In (ConsoleError e) (trace (createSendMailHandler env config event)) ->
     resp = buildErrorResponse e generic_message (Some 500) /\
     exists t,
       trace (createSendMailHandler env config event) = t ++ [ConsoleError e] /\
       Forall (fun ev => is_ConsoleError ev = false) t).
Proof.
  intros Hresp.
  destruct (run_logged _ _ _ _ _ (handler_run env config event) Hresp)
    as [(e & t & Hrun & Hquiet) | [Hstatus Hquiet]].
  - rewrite Hrun in Hresp |- *. simpl in Hresp |- *. injection Hresp as <-.
    split.
    + split; [intros _ | reflexivity].
      exists e. apply in_or_app. right. left. reflexivity.
    + intros e' Hin. apply in_app_or in Hin as [Hin | [Heq | []]].
      * destruct (not_logged_not_in _ _ Hquiet Hin).
      * injection Heq as ->. split; [reflexivity |]. eauto.
  - split.
    + split; [intros H; contradiction |].
      intros [e Hin]. destruct (not_logged_not_in _ _ Hquiet Hin).
    + intros e Hin. destruct (not_logged_not_in _ _ Hquiet Hin).
Qed.

Lemma status_500_iff_logged_witness :
  let env := Sample.world (RequestError lookup_failed) None in
  let event := Sample.json_event (Some (Sample.json_text Sample.jane)) in
  let run := createSendMailHandler env Sample.live_config event in
  result run = Ret (buildErrorResponse lookup_failed generic_message (Some 500)) /\
  (statusCode (buildErrorResponse lookup_failed generic_message (Some 500)) = 500 <->
   exists e, In (ConsoleError e) (trace run)).
Proof.
  intros env event run.
  assert (H : result run =
              Ret (buildErrorResponse lookup_failed generic_message (Some 500)))
    by (vm_compute; reflexivity).
  split; [exact H |].
  exact (proj1 (status_500_iff_logged env Sample.live_config event _ H)).
Defined.

Lemma every_answer_is_200_400_or_500_witness :
  let env := Sample.world (ResponseText Sample.success_false) None in
  let event := Sample.json_event (Some (Sample.json_text Sample.jane)) in
  let resp :=
    {| statusCode := 400;
       headers := fixed_headers;
       body := error_body_text "reCAPTCHA failed" "Invalid reCAPTCHA" |} in
  result (createSendMailHandler env Sample.live_config event) = Ret resp /\
  headers resp = fixed_headers /\
  ((statusCode resp = 200 /\ body resp = success_body) \/
   (statusCode resp = 400 /\
    exists m e,
      body resp = JSON_stringify_record [("message", m); ("error", e)]) \/
   (statusCode resp = 500 /\
    exists e,
      body resp =
        generic_error_prefix +:+ JSON_quote (err_message e) +:+ "}")).
Proof.
  intros env event resp.
  assert (H : result (createSendMailHandler env Sample.live_config event) =
              Ret resp) by (vm_compute; reflexivity).
  split; [exact H |].
  exact (every_answer_is_200_400_or_500 env Sample.live_config event resp H).
Defined.

(** ** Outbound calls *)

(** X3: a call of the handler makes at most two outbound calls, in a
    fixed order: at most one request to the verification endpoint, then at
    most one call of the mail transport, for the configured region. *)
Theorem outbound_calls_in_order env config event :
  let out := List.filter is_outbound
               (trace (createSendMailHandler env config event)) in
  out = [] \/
  (exists d, out = [HttpsRequest recaptcha_host recaptcha_path d]) \/
  (exists m, out = [SendMail (ses_region config) m]) \/
  (exists d m, out = [HttpsRequest recaptcha_host recaptcha_path d;
                      SendMail (ses_region config) m]).
Proof.
  pose proof (handler_run env config event) as Hrun.
  remember (createSendMailHandler env config event) as run eqn:Erun.
  destruct Hrun; try (captcha_trace env config props tc H1); simpl; eauto 6.
Qed.

(** The captcha stage lets a payload through exactly when
    [recaptcha_passes]. *)
Lemma captcha_stage_passes env config props :
  result (captcha_stage env config props) = Ret true <->
  recaptcha_passes env config props.
Proof.
  unfold captcha_stage, recaptcha_passes.
  destruct (flag (skipRecaptcha config)).
  - split; [left; reflexivity | reflexivity].
  - rewrite result_bind.
    destruct (result (verifyRecaptchaToken env _ _)) as [v | e | e]; simpl.
    + split.
      * intros H. right. exists v. split; [reflexivity | congruence].
      * intros [H | (v' & Hv & Ht)]; [discriminate |].
        injection Hv as <-. rewrite Ht. reflexivity.
    + split; [discriminate | intros [H | (v & Hv & _)]; discriminate].
    + split; [discriminate | intros [H | (v & Hv & _)]; discriminate].
Qed.

Lemma captcha_stage_passed env config props tc :
  captcha_stage env config props = (Ret true, tc) ->
  recaptcha_passes env config props.
Proof. intros H. apply captcha_stage_passes. rewrite H. reflexivity. Qed.

(** X4: the mail transport is called only for a payload that was
    extracted, passed validation and passed the captcha stage, only with
    sending enabled, and with the mail built from that payload. *)
Theorem mail_sent_only_after_checks env config event r m :
  In (SendMail r m) (trace (createSendMailHandler env config event)) ->
  flag (disableSend config) = false /\
  r = ses_region config /\
  exists props,
    result (extract_body env event) = Ret (JObj props) /\
    valid (validate env (JObj props)) = true /\
    recaptcha_passes env config props /\
    build_mailOptions config (JObj props) = ret m.
Proof.
  pose proof (handler_run env config event) as Hrun.
  remember (createSendMailHandler env config event) as run eqn:Erun.
  intros Hin.
  destruct Hrun; simpl in Hin;
    try match goal with
        | H : captcha_stage _ _ _ = _ |- _ =>
            pose proof (captcha_stage_quiet _ _ _ _ _ H) as [_ Hq];
            rewrite List.Forall_forall in Hq
        end;
    try (apply in_app_or in Hin as [Hin | Hin];
         [specialize (Hq _ Hin); discriminate | simpl in Hin]);
    try (specialize (Hq _ Hin); discriminate);
    repeat match goal with
           | H : _ \/ _ |- _ => destruct H
           | H : False |- _ => destruct H
           | H : _ = SendMail _ _ |- _ =>
               first [discriminate H | injection H as -> ->]
           end;
    (split; [assumption |]); (split; [reflexivity |]);
    exists props; eauto using captcha_stage_passed.
Qed.

Lemma mail_sent_only_after_checks_witness :
  let env := Sample.world (ResponseText Sample.success_true) None in
  let event := Sample.json_event (Some (Sample.json_text Sample.jane)) in
  let m := {| from := "no-reply@example.com"; to := "hello@example.com";
              subject := JStr "Hi"; text := JStr "hey";
              replyTo := JStr "jane@example.com"; attachments := None |} in
  In (SendMail "us-west-2" m)
     (trace (createSendMailHandler env Sample.live_config event)) /\
  flag (disableSend Sample.live_config) = false /\
  "us-west-2" = ses_region Sample.live_config /\
  exists props,
    result (extract_body env event) = Ret (JObj props) /\
    valid (validate env (JObj props)) = true /\
    recaptcha_passes env Sample.live_config props /\
    build_mailOptions Sample.live_config (JObj props) = ret m.
Proof.
  intros env event m.
  assert (Hin : In (SendMail "us-west-2" m)
                   (trace (createSendMailHandler env Sample.live_config event)))
    by (vm_compute; auto).
  split; [exact Hin |].
  exact (mail_sent_only_after_checks env Sample.live_config event _ _ Hin).
Defined.

(** X5: no false success: a 200 is the fixed success response, and it is
    given only for a payload that was extracted, passed validation and the
    captcha stage and whose mail was built, and only when sending is
    disabled or the transport accepted that mail. *)
Theorem success_only_if_delivered env config event resp :
  result (createSendMailHandler env config event) = Ret resp ->
  statusCode resp = 200 ->
  resp = buildSuccessResponse "Mail sent successfully" None /\
  exists props mail,
    result (extract_body env event) = Ret (JObj props) /\
    valid (validate env (JObj props)) = true /\
    recaptcha_passes env config props /\
    build_mailOptions config (JObj props) = ret mail /\
    (flag (disableSend config) = true \/
     (sendMail env (ses_region config) mail = None /\
      In (SendMail (ses_region config) mail)
         (trace (createSendMailHandler env config event)))).
Proof.
  pose proof (handler_run env config event) as Hrun.
  remember (createSendMailHandler env config event) as run eqn:Erun.
  intros Hresp Hstatus.
  destruct Hrun; simpl in Hresp; try discriminate; injection Hresp as <-;
    try discriminate Hstatus;
    (split; [reflexivity |]); exists props, mail;
    repeat (split; [eauto using captcha_stage_passed |]).
  - left. assumption.
  - right. split; [assumption |]. simpl. apply in_or_app. right. left. reflexivity.
Qed.

Lemma success_only_if_delivered_witness :
  let env := Sample.world (ResponseText Sample.success_true) None in
  let event := Sample.json_event (Some (Sample.json_text Sample.jane)) in
  result (createSendMailHandler env Sample.live_config event) =
    Ret success_response /\
  exists props mail,
    result (extract_body env event) = Ret (JObj props) /\
    valid (validate env (JObj props)) = true /\
    recaptcha_passes env Sample.live_config props /\
    build_mailOptions Sample.live_config (JObj props) = ret mail /\
    (flag (disableSend Sample.live_config) = true \/
     (sendMail env (ses_region Sample.live_config) mail = None /\
      In (SendMail (ses_region Sample.live_config) mail)
         (trace (createSendMailHandler env Sample.live_config event)))).
Proof.
  intros env event.
  assert (H : result (createSendMailHandler env Sample.live_config event) =
              Ret success_response) by (vm_compute; reflexivity).
  split; [exact H |].
  exact (proj2 (success_only_if_delivered env Sample.live_config event _ H eq_refl)).
Defined.

(** With sending enabled a fully valid payload goes to the transport
    once, and the transport decides the answer. *)
Lemma run_with_sending env config event props :
  flag (disableSend config) = false ->
  result (extract_body env event) = Ret (JObj props) ->
  fully_valid env config props ->
  exists mail,
    build_mailOptions config (JObj props) = ret mail /\
    List.filter is_SendMail (trace (createSendMailHandler env config event)) =
      [SendMail (ses_region config) mail] /\
    result (createSendMailHandler env config event) =
      match sendMail env (ses_region config) mail with
      | None => Ret (buildSuccessResponse "Mail sent successfully" None)
      | Some e => Ret (buildErrorResponse e generic_message (Some 500))
      end.
Proof.
  pose proof (handler_run env config event) as Hrun.
  remember (createSendMailHandler env config event) as run eqn:Erun.
  intros Hon Hbody (Hvalid & Hfiles & Hpass).
  apply captcha_stage_passes in Hpass.
  pose proof (build_mailOptions_well_formed config props Hfiles) as Hmail.
  assert (Hnone : forall r tc,
            captcha_stage env config props = (r, tc) ->
            List.filter is_SendMail tc = []).
  { intros r tc Hc. destruct (captcha_stage_quiet _ _ _ _ _ Hc) as [_ Hq].
    clear Hc. induction Hq as [| ev t Hev _ IH]; simpl; [| rewrite Hev]; auto. }
  destruct Hrun
    as [e Hx | e Hx | body Hx Hv | props' e tc Hx Hv Hc | props' tc Hx Hv Hc
       | props' tc e Hx Hv Hc Hm | props' tc mail Hx Hv Hc Hm Hoff
       | props' tc mail Hx Hv Hc Hm Hoff Hsend
       | props' tc mail e Hx Hv Hc Hm Hoff Hsend];
    rewrite Hbody in Hx; try discriminate Hx; injection Hx as <-;
    try congruence;
    try (rewrite Hc in Hpass; discriminate Hpass);
    try (rewrite Hm in Hmail; discriminate Hmail).
  - exists mail. split; [exact Hm |]. rewrite Hsend. simpl.
    rewrite List.filter_app, (Hnone _ _ Hc). auto.
  - exists mail. split; [exact Hm |]. rewrite Hsend. simpl.
    rewrite List.filter_app, (Hnone _ _ Hc). auto.
Qed.

(** X6: with sending enabled, a fully valid payload is handed to the
    transport exactly once, for the region [config.region || "us-west-2"],
    and the transport decides the answer: 200 when it accepts the mail, the
    500 of the [catch] with its error when it rejects it.  There is no
    second attempt. *)
Theorem transport_decides env config event props :
  flag (disableSend config) = false ->
  result (extract_body env event) = Ret (JObj props) ->
  fully_valid env config props ->
  exists mail,
    build_mailOptions config (JObj props) = ret mail /\
    List.filter is_SendMail (trace (createSendMailHandler env config event)) =
      [SendMail (ses_region config) mail] /\
    result (createSendMailHandler env config event) =
      match sendMail env (ses_region config) mail with
      | None => Ret (buildSuccessResponse "Mail sent successfully" None)
      | Some e => Ret (buildErrorResponse e generic_message (Some 500))
      end.
Proof. exact (run_with_sending env config event props). Qed.

Lemma transport_decides_witness :
  let rejected := mkError "MessageRejected" "Email address is not verified." in
  let env := Sample.world (ResponseText Sample.success_true) (Some rejected) in
  let event := Sample.json_event (Some (Sample.json_text Sample.jane)) in
  let props := props_of (Sample.as_object Sample.jane) in
  flag (disableSend Sample.live_config) = false /\
  result (extract_body env event) = Ret (JObj props) /\
  fully_valid env Sample.live_config props /\
  exists mail,
    build_mailOptions Sample.live_config (JObj props) = ret mail /\
    List.filter is_SendMail
      (trace (createSendMailHandler env Sample.live_config event)) =
      [SendMail "us-west-2" mail] /\
    result (createSendMailHandler env Sample.live_config event) =
      Ret (buildErrorResponse rejected generic_message (Some 500)).
Proof.
  intros rejected env event props.
  assert (Hon : flag (disableSend Sample.live_config) = false) by reflexivity.
  assert (Hbody : result (extract_body env event) = Ret (JObj props))
    by (vm_compute; reflexivity).
  assert (Hfull : fully_valid env Sample.live_config props).
  { split; [vm_compute; reflexivity |]. split; [vm_compute; reflexivity |].
    right. exists (JBool true). split; vm_compute; reflexivity. }
  split; [exact Hon |]. split; [exact Hbody |]. split; [exact Hfull |].
  exact (transport_decides env Sample.live_config event props Hon Hbody Hfull).
Defined.

(** ** Validation *)

Lemma check_properties_format fmt decls props k ps f s :
  check_properties fmt decls props = None ->
  In (k, ps) decls ->
  get_own props k = JStr s ->
  prop_format ps = Some f ->
  fmt f s = true.
Proof.
  induction decls as [| [k' ps'] decls IH]; cbn [check_properties In];
    [contradiction |].
  intros H [Heq | Hin] Hs Hf.
  - injection Heq as -> ->. rewrite Hs in H. unfold check_property in H.
    rewrite Hf in H.
    destruct (negb (has_type (prop_type ps) (JStr s))); [discriminate |].
    destruct (fmt f s); [reflexivity | discriminate].
  - apply IH; auto.
    destruct (get_own props k'); auto;
      match type of H with
      | context [check_property ?g ?a ?b ?c] =>
          destruct (check_property g a b c); auto; discriminate
      end.
Qed.

Lemma check_properties_error fmt decls props e :
  check_properties fmt decls props = Some e ->
  exists k ps,
    In (k, ps) decls /\
    (e = type_error ("/" +:+ k) (prop_type ps) \/
     exists f, prop_format ps = Some f /\ e = format_error ("/" +:+ k) f).
Proof.
  induction decls as [| [k ps] decls IH]; cbn [check_properties];
    [discriminate |].
  intros H.
  assert (Hrest : check_properties fmt decls props = Some e ->
                  exists k0 ps0,
                    In (k0, ps0) ((k, ps) :: decls) /\
                    (e = type_error ("/" +:+ k0) (prop_type ps0) \/
                     exists f, prop_format ps0 = Some f /\
                               e = format_error ("/" +:+ k0) f)).
  { intros H'. destruct (IH H') as (k0 & ps0 & Hin & He).
    exists k0, ps0. split; [right; exact Hin | exact He]. }
  assert (Hhere : forall v,
            check_property fmt k ps v = Some e ->
            exists k0 ps0,
              In (k0, ps0) ((k, ps) :: decls) /\
              (e = type_error ("/" +:+ k0) (prop_type ps0) \/
               exists f, prop_format ps0 = Some f /\
                         e = format_error ("/" +:+ k0) f)).
  { intros v Hv. exists k, ps. split; [left; reflexivity |].
    unfold check_property in Hv.
    destruct (negb (has_type (prop_type ps) v)).
    - injection Hv as <-. left. reflexivity.
    - destruct (prop_format ps) as [f |]; [| discriminate].
      destruct v; try discriminate.
      destruct (fmt f s); [discriminate |]. injection Hv as <-.
      right. exists f. auto. }
  destruct (get_own props k) eqn:Hk; auto;
    match type of H with
    | context [check_property ?g ?a ?b ?c] =>
        destruct (check_property g a b c) eqn:Hc;
          [injection H as ->; eapply Hhere; exact Hc | auto]
    end.
Qed.

Lemma first_missing_in names props k :
  first_missing names props = Some k -> In k names.
Proof.
  induction names as [| n names IH]; simpl; [discriminate |].
  destruct (get_own props n); intros H;
    first [injection H as ->; left; reflexivity | right; auto].
Qed.

(** X7: validation accepts exactly the objects whose five required
    properties are strings and whose [email] matches the [email] format;
    other properties, [files] among them, are not looked at. *)
Theorem validation_accepts_exactly env body :
  valid (validate env body) = true <->
  exists props,
    body = JObj props /\
    (forall k, In k (required schema) -> exists s, get_own props k = JStr s) /\
    (exists s, get_own props "email" = JStr s /\ format_ok env "email" s = true).
Proof.
  split.
  - intros Hvalid. destruct (valid_is_object env body Hvalid) as [props ->].
    exists props. split; [reflexivity |].
    split; [intros k Hk; exact (valid_strings env props k Hvalid Hk) |].
    destruct (valid_strings env props "email" Hvalid) as [s Hs];
      [simpl; auto |].
    exists s. split; [exact Hs |].
    revert Hvalid. unfold validate, compile, first_error.
    simpl has_type. simpl negb. cbv iota. unfold props_of.
    destruct (first_missing (required schema) props); [discriminate |].
    destruct (check_properties _ (properties schema) props) eqn:Hprops;
      [discriminate |].
    intros _.
    eapply (check_properties_format _ _ _ "email" (mkProp "string" (Some "email")));
      [exact Hprops | simpl; auto | exact Hs | reflexivity].
  - intros (props & -> & Hall & s & Hs & Hfmt).
    destruct (Hall "name") as [s1 H1]; [simpl; auto 6 |].
    destruct (Hall "subject") as [s3 H3]; [simpl; auto 6 |].
    destruct (Hall "message") as [s4 H4]; [simpl; auto 6 |].
    destruct (Hall "recaptcha") as [s5 H5]; [simpl; auto 6 |].
    unfold validate, compile, first_error, schema. cbn -[get_own].
    rewrite H1, Hs, H3, H4, H5. cbn -[get_own]. rewrite Hfmt. reflexivity.
Qed.

(** The message of a payload that fails validation is one of Ajv's
    four. *)
Lemma first_error_message env body e :
  first_error (format_ok env) schema body = Some e ->
  message e = Some must_be_object \/
  (exists k, In k (required schema) /\ message e = Some (required_message k)) \/
  message e = Some must_be_string \/
  message e = Some must_match_email.
Proof.
  unfold first_error.
  destruct (negb (has_type (schema_type schema) body)).
  { intros H. injection H as <-. left. reflexivity. }
  destruct (first_missing (required schema) (props_of body)) as [k |] eqn:Hk.
  { intros H. injection H as <-. right. left.
    exists k. split; [exact (first_missing_in _ _ _ Hk) | reflexivity]. }
  intros H. apply check_properties_error in H as (k & ps & Hin & He).
  right. right. simpl in Hin.
  destruct Hin as [Hd | [Hd | [Hd | [Hd | [Hd | []]]]]];
    injection Hd as <- <-;
    (destruct He as [-> | (f & Hf & ->)];
     [left; reflexivity | simpl in Hf; try discriminate]).
  injection Hf as <-. right. reflexivity.
Qed.

(** X8: a payload that fails validation is answered with status 400;
    the message, repeated as the [error], is one of four texts of the
    validator (the fallback [Invalid input] is never used); and nothing is
    verified, sent or logged. *)
Theorem invalid_payload_is_400 env config event body :
  result (extract_body env event) = Ret body ->
  valid (validate env body) = false ->
  exists msg,
    createSendMailHandler env config event =
      (Ret (buildErrorResponse (new_Error msg) msg (Some 400)), []) /\
    (msg = must_be_object \/
     (exists k, In k (required schema) /\ msg = required_message k) \/
     msg = must_be_string \/
     msg = must_match_email).
Proof.
  intros Hbody Hinvalid.
  exists (first_message (errors (validate env body))). split.
  - unfold createSendMailHandler.
    rewrite (handle_extracted env config event _ Hbody). unfold process.
    rewrite Hinvalid. reflexivity.
  - revert Hinvalid. unfold validate, compile.
    destruct (first_error (format_ok env) schema body) as [e |] eqn:He;
      [| discriminate].
    intros _. simpl.
    destruct (first_error_message env body e He)
      as [H | [(k & Hk & H) | [H | H]]]; rewrite H.
    + left. reflexivity.
    + right. left. exists k. split; [exact Hk | reflexivity].
    + right. right. left. reflexivity.
    + right. right. right. reflexivity.
Qed.

(** X9: a payload with all five required properties as strings, whose
    [email] does not match the format, is answered with status 400 and the
    message [must match format "email"]. *)
Theorem invalid_email_is_400 env config event props s :
  result (extract_body env event) = Ret (JObj props) ->
  (forall k, In k (required schema) -> exists v, get_own props k = JStr v) ->
  get_own props "email" = JStr s ->
  format_ok env "email" s = false ->
  createSendMailHandler env config event =
    (Ret (buildErrorResponse (new_Error must_match_email) must_match_email
            (Some 400)), []).
Proof.
  intros Hbody Hall Hs Hfmt.
  assert (Hv : validate env (JObj props) =
               mkValidation false (Some [format_error "/email" "email"])).
  { destruct (Hall "name") as [s1 H1]; [simpl; auto 6 |].
    destruct (Hall "subject") as [s3 H3]; [simpl; auto 6 |].
    destruct (Hall "message") as [s4 H4]; [simpl; auto 6 |].
    destruct (Hall "recaptcha") as [s5 H5]; [simpl; auto 6 |].
    unfold validate, compile, first_error, schema. cbn -[get_own].
    rewrite H1, Hs, H3, H4, H5. cbn -[get_own]. rewrite Hfmt. reflexivity. }
  unfold createSendMailHandler.
  rewrite (handle_extracted env config event _ Hbody). unfold process.
  rewrite Hv. reflexivity.
Qed.

Lemma invalid_email_is_400_witness :
  let env := Cases.world (ResponseText Sample.success_true) None in
  let event := Sample.json_event (Some (Sample.json_text Cases.bad_email)) in
  createSendMailHandler env Sample.live_config event =
    (Ret (buildErrorResponse (new_Error must_match_email) must_match_email
            (Some 400)), []).
Proof.
  intros env event.
  apply (invalid_email_is_400 env Sample.live_config event
           (props_of (Sample.as_object Cases.bad_email)) "jane.example.com").
  - vm_compute; reflexivity.
  - intros k Hk. simpl in Hk.
    destruct Hk as [<- | [<- | [<- | [<- | [<- | []]]]]]; eexists; reflexivity.
  - reflexivity.
  - reflexivity.
Defined.

(** X10: a payload that is no object ([null], a boolean, a number, a
    string or an array) is answered with status 400 and the message
    [must be object]; it is not treated as a fault. *)
Theorem non_object_payload_is_400 env config event body :
  result (extract_body env event) = Ret body ->
  has_type "object" body = false ->
  createSendMailHandler env config event =
    (Ret (buildErrorResponse (new_Error must_be_object) must_be_object
            (Some 400)), []).
Proof.
  intros Hbody Htype.
  assert (Hv : validate env body =
               mkValidation false (Some [type_error EmptyString "object"])).
  { unfold validate, compile, first_error. simpl schema_type.
    rewrite Htype. reflexivity. }
  unfold createSendMailHandler.
  rewrite (handle_extracted env config event _ Hbody). unfold process.
  rewrite Hv. reflexivity.
Qed.

Lemma non_object_payload_is_400_witness :
  let env := Cases.world (ResponseText Sample.success_true) None in
  let event := Sample.json_event (Some "null") in
  result (extract_body env event) = Ret JNull /\
  createSendMailHandler env Sample.live_config event =
    (Ret (buildErrorResponse (new_Error must_be_object) must_be_object
            (Some 400)), []).
Proof.
  intros env event. split; [vm_compute; reflexivity |].
  apply (non_object_payload_is_400 env Sample.live_config event JNull);
    vm_compute; reflexivity.
Defined.

Lemma invalid_payload_is_400_witness :
  let env := Cases.world (ResponseText Sample.success_true) None in
  let event := Sample.json_event (Some "[]") in
  exists msg,
    createSendMailHandler env Sample.live_config event =
      (Ret (buildErrorResponse (new_Error msg) msg (Some 400)), []) /\
    (msg = must_be_object \/
     (exists k, In k (required schema) /\ msg = required_message k) \/
     msg = must_be_string \/
     msg = must_match_email).
Proof.
  intros env event.
  apply (invalid_payload_is_400 env Sample.live_config event (JArr []));
    vm_compute; reflexivity.
Defined.

Lemma validation_accepts_exactly_witness :
  let env := Cases.world (ResponseText Sample.success_true) None in
  valid (validate env (Sample.as_object Sample.jane)) = true /\
  valid (validate env (Sample.as_object Cases.bad_email)) = false.
Proof.
  intros env. split.
  - apply (validation_accepts_exactly env (Sample.as_object Sample.jane)).
    eexists. split; [reflexivity |]. split.
    + intros k Hk. simpl in Hk.
      destruct Hk as [<- | [<- | [<- | [<- | [<- | []]]]]]; eexists; reflexivity.
    + eexists. split; reflexivity.
  - destruct (valid (validate env (Sample.as_object Cases.bad_email))) eqn:H;
      [| reflexivity].
    apply (validation_accepts_exactly env) in H
      as (props & Hprops & _ & s & Hs & Hfmt).
    injection Hprops as <-. vm_compute in Hs. injection Hs as <-.
    vm_compute in Hfmt. discriminate Hfmt.
Defined.

(** ** Multipart extraction *)

(** X11: round trip of uploads: when the parser closes and no plain
    field is called [files], extraction succeeds and the payload's [files]
    holds one record per file part, in the order of the parts: the
    [filename] and the [mimeType] the parser reported and, as [content], the
    chunks of the file concatenated in order.  Without file parts it is the
    empty array. *)
Theorem multipart_files_round_trip env event parts :
  busboy env (contentType_of event) (written_of event) = (parts, Close) ->
  forallb (fun part => negb (is_files_field part)) parts = true ->
  exists props files,
    extractMultipart env event = ret (JObj props) /\
    get_own props "files" = JArr files /\
    files = file_records parts /\
    length files = length (List.filter (fun p => negb (is_field p)) parts) /\
    forall i info chunks,
      List.filter (fun p => negb (is_field p)) parts !! i =
        Some (FilePart info chunks) ->
      files !! i =
        Some (JObj [("filename", filename info);
                    ("contentType", mimeType info);
                    ("content", JBuffer (concat chunks))]).
Proof.
  intros Hparse Hparts.
  destruct (extractMultipart_files_array env event parts (written_of event)
              eq_refl Hparse Hparts) as (props & Hx & Hfiles).
  exists props, (file_records parts).
  split; [exact Hx |]. split; [exact Hfiles |]. split; [reflexivity |].
  clear. induction parts as [| [n v | info chunks] parts [IHlen IH]]; simpl.
  - split; [reflexivity | intros i info chunks H; destruct i; discriminate].
  - split; assumption.
  - split; [congruence |].
    intros [| i] info' chunks' H; simpl in H |- *.
    + injection H as <- <-. reflexivity.
    + apply IH. exact H.
Qed.

Lemma multipart_files_round_trip_witness :
  let env := Sample.world (ResponseText Sample.success_true) None in
  let event := Sample.form_event "content-type" Sample.jane [Sample.x_txt] in
  exists props,
    extractMultipart env event = ret (JObj props) /\
    get_own props "files" =
      JArr [JObj [("filename", JStr "x.txt");
                  ("contentType", JStr "text/plain");
                  ("content", JBuffer (list_byte_of_string "hello"))]].
Proof.
  intros env event.
  destruct (multipart_files_round_trip env event
              (Sample.parts_of Sample.jane [Sample.x_txt]))
    as (props & files & Hx & Hfiles & -> & _);
    [vm_compute; reflexivity | vm_compute; reflexivity |].
  exists props. split; [exact Hx | exact Hfiles].
Defined.

Lemma on_field_other fieldname value result name :
  name <> "__proto__" ->
  get_own (on_field fieldname value result) name =
    if String.eqb fieldname name then JStr value else get_own result name.
Proof.
  intros Hproto. unfold on_field.
  destruct (String.eqb fieldname name) eqn:E.
  - apply String.eqb_eq in E. subst fieldname.
    destruct (String.eqb name "__proto__") eqn:E'.
    + apply String.eqb_eq in E'. contradiction.
    + apply get_own_set_prop_eq.
  - apply String.eqb_neq in E.
    destruct (String.eqb fieldname "__proto__"); [reflexivity |].
    apply get_own_set_prop_ne. exact E.
Qed.

Lemma lookup_prop_set_prop_eq k v props :
  lookup_prop k (set_prop k v props) = Some v.
Proof.
  induction props as [| [k' v'] props IH]; simpl.
  - rewrite String.eqb_refl. reflexivity.
  - destruct (String.eqb k k') eqn:E; simpl.
    + rewrite String.eqb_refl. reflexivity.
    + rewrite E. exact IH.
Qed.

Lemma lookup_prop_set_prop_ne k k' v props :
  k <> k' -> lookup_prop k' (set_prop k v props) = lookup_prop k' props.
Proof.
  intros Hne. induction props as [| [k0 v0] props IH]; simpl.
  - destruct (String.eqb k' k) eqn:E; [| reflexivity].
    apply String.eqb_eq in E. congruence.
  - destruct (String.eqb k k0) eqn:E; simpl.
    + apply String.eqb_eq in E. subst k0.
      destruct (String.eqb k' k) eqn:E'; [| reflexivity].
      apply String.eqb_eq in E'. congruence.
    + destruct (String.eqb k' k0); [reflexivity | exact IH].
Qed.

Lemma on_field_own fieldname value result name :
  name <> "__proto__" ->
  lookup_prop name (on_field fieldname value result) =
    if String.eqb fieldname name then Some (JStr value)
    else lookup_prop name result.
Proof.
  intros Hproto. unfold on_field.
  destruct (String.eqb fieldname name) eqn:E.
  - apply String.eqb_eq in E. subst fieldname.
    destruct (String.eqb name "__proto__") eqn:E'.
    + apply String.eqb_eq in E'. contradiction.
    + apply lookup_prop_set_prop_eq.
  - apply String.eqb_neq in E.
    destruct (String.eqb fieldname "__proto__"); [reflexivity |].
    apply lookup_prop_set_prop_ne. exact E.
Qed.

Lemma run_listeners_own name parts : forall result result',
  name <> "files" -> name <> "__proto__" ->
  run_listeners parts result = ret result' ->
  lookup_prop name result' =
    match last_field name parts with
    | Some v => Some (JStr v)
    | None => lookup_prop name result
    end.
Proof.
  induction parts as [| [n v | info chunks] parts IH];
    intros result result' Hfiles Hproto Hrun; simpl in Hrun |- *.
  - injection Hrun as <-. reflexivity.
  - rewrite (IH _ _ Hfiles Hproto Hrun).
    destruct (last_field name parts); [reflexivity |].
    rewrite (on_field_own _ _ _ _ Hproto).
    destruct (String.eqb n name); reflexivity.
  - unfold on_file_end in Hrun.
    destruct (get_own result "files"); try discriminate Hrun.
    rewrite bind_ret_l in Hrun. rewrite (IH _ _ Hfiles Hproto Hrun).
    destruct (last_field name parts); [reflexivity |].
    apply lookup_prop_set_prop_ne. congruence.
Qed.

(** X12: the plain fields of a form become own string properties of the
    payload, under their own names: when extraction succeeds, for a name
    other than [files] and [__proto__] the payload has an own property of
    that name exactly when the form has a plain field of that name, and its
    value is the value of the last such field. *)
Theorem multipart_fields_last_wins env event props name :
  extractMultipart env event = ret (JObj props) ->
  name <> "files" -> name <> "__proto__" ->
  lookup_prop name props =
    match last_field name
            (fst (busboy env (contentType_of event) (written_of event))) with
    | Some v => Some (JStr v)
    | None => None
    end.
Proof.
  unfold extractMultipart. fold (written_of event).
  destruct (busboy env (contentType_of event) (written_of event))
    as [parts fin].
  intros Hx Hfiles Hproto. simpl fst.
  destruct (run_listeners parts initial_result) as [[result | e | e] t] eqn:Hrun;
    try discriminate Hx.
  assert (Ht : t = []).
  { pose proof (run_listeners_events (fun _ => False) parts initial_result) as H.
    unfold all_events in H. rewrite Hrun in H. simpl in H.
    destruct t; [reflexivity | inversion H; contradiction]. }
  subst t. change (Ret result, @nil Event) with (ret result) in Hx, Hrun.
  rewrite bind_ret_l in Hx. destruct fin; [| discriminate Hx].
  injection Hx as <-.
  rewrite lookup_prop_set_prop_ne by congruence.
  rewrite (run_listeners_own name parts _ _ Hfiles Hproto Hrun).
  destruct (last_field name parts); [reflexivity |].
  unfold initial_result. simpl.
  destruct (String.eqb name "files") eqn:E; [| reflexivity].
  apply String.eqb_eq in E. contradiction.
Qed.

Lemma multipart_fields_last_wins_witness :
  let env := Sample.world (ResponseText Sample.success_true) None in
  let event := Sample.form_event "content-type" Sample.jane [Sample.x_txt] in
  exists props,
    extractMultipart env event = ret (JObj props) /\
    lookup_prop "email" props = Some (JStr "jane@example.com") /\
    lookup_prop "constructor" props = None.
Proof.
  intros env event. eexists. split; [vm_compute; reflexivity |]. split.
  - refine (multipart_fields_last_wins env event _ "email" _ _ _);
      [vm_compute; reflexivity | discriminate | discriminate].
  - refine (multipart_fields_last_wins env event _ "constructor" _ _ _);
      [vm_compute; reflexivity | discriminate | discriminate].
Defined.

Lemma run_listeners_string_files mid info chunks post : forall result s,
  get_own result "files" = JStr s ->
  exists e, run_listeners (mid ++ FilePart info chunks :: post) result = crash e.
Proof.
  induction mid as [| [n v | info' chunks'] mid IH]; intros result s Hs; simpl.
  - unfold on_file_end. rewrite Hs. eexists. reflexivity.
  - assert (Hs' : exists s', get_own (on_field n v result) "files" = JStr s').
    { rewrite on_field_other by discriminate.
      destruct (String.eqb n "files"); eauto. }
    destruct Hs' as [s' Hs']. exact (IH _ _ Hs').
  - unfold on_file_end. rewrite Hs. eexists. reflexivity.
Qed.

Lemma run_listeners_files_field_then_file pre value mid info chunks post :
  forall result,
  exists e,
    run_listeners
      (pre ++ FieldPart "files" value :: mid ++ FilePart info chunks :: post)
      result = crash e.
Proof.
  induction pre as [| [n v | info' chunks'] pre IH]; intros result; simpl.
  - apply (run_listeners_string_files mid info chunks post _ value).
    unfold on_field. simpl. apply get_own_set_prop_eq.
  - apply IH.
  - unfold on_file_end.
    destruct (get_own result "files");
      try (eexists; reflexivity).
    rewrite bind_ret_l. apply IH.
Qed.

(** X13: a form with a plain field called [files] whose listener runs
    before the stream of an uploaded file ends makes that file's [end]
    listener throw ([result.files] is a string and has no [push]).  The
    exception is thrown outside the promise and outside the [try]: the call
    ends without a response and without a log entry. *)
Theorem files_field_before_upload_crashes env config event
    pre value mid info chunks post fin :
  is_multipart (contentType_of event) = true ->
  busboy env (contentType_of event) (written_of event) =
    (pre ++ FieldPart "files" value :: mid ++ FilePart info chunks :: post, fin) ->
  exists e, createSendMailHandler env config event = (Uncaught e, []).
Proof.
  intros Hroute Hparse.
  destruct (run_listeners_files_field_then_file pre value mid info chunks post
              initial_result) as [e He].
  exists e. unfold createSendMailHandler, handle, extract_body.
  rewrite Hroute. unfold extractMultipart. fold (written_of event).
  rewrite Hparse, He. reflexivity.
Qed.

Lemma files_field_before_upload_crashes_witness :
  let env := Cases.world (ResponseText Sample.success_true) None in
  let event :=
    Sample.form_event "content-type" Sample.jane_with_files_field [Sample.x_txt] in
  is_multipart (contentType_of event) = true /\
  exists e, createSendMailHandler env Sample.live_config event = (Uncaught e, []).
Proof.
  intros env event. split; [reflexivity |].
  apply (files_field_before_upload_crashes env Sample.live_config event
           (Sample.parts_of Sample.jane []) "x" []
           (mkFileInfo (JStr "x.txt") "7bit" (JStr "text/plain"))
           [list_byte_of_string "hello"] [] Close);
    vm_compute; reflexivity.
Defined.



(** ** Verification without a secret, and the answer of the endpoint *)

Lemma result_handler env config event :
  result (createSendMailHandler env config event) =
    match result (handle env config event) with
    | Throw e => Ret (buildErrorResponse e generic_message (Some 500))
    | other => other
    end.
Proof.
  unfold createSendMailHandler, try_catch.
  destruct (handle env config event) as [[r | e | e] t]; reflexivity.
Qed.

Lemma captcha_stage_no_secret env config props :
  or_default (recaptchaSecret config) EmptyString = EmptyString ->
  result (captcha_stage env config props) = Ret true /\
  Forall (fun ev => is_HttpsRequest ev = false)
         (trace (captcha_stage env config props)).
Proof.
  intros Hnone.
  destruct (captcha_stage_cases env config props)
    as [[_ ->] | [(_ & _ & ->) | (_ & c & s & r & Hsecret & _)]].
  - split; [reflexivity | constructor].
  - split; [reflexivity | repeat constructor].
  - rewrite Hsecret in Hnone. discriminate Hnone.
Qed.

(** X15: without a secret ([recaptchaSecret] undefined or empty) the
    verifier resolves to [true] without a request: no call of the handler
    contacts the verification endpoint, and every request gets the response
    it would get with [skipRecaptcha] on. *)
Theorem no_secret_is_no_verification env config event :
  or_default (recaptchaSecret config) EmptyString = EmptyString ->
  Forall (fun ev => is_HttpsRequest ev = false)
         (trace (createSendMailHandler env config event)) /\
  result (createSendMailHandler env config event) =
    result (createSendMailHandler env (with_skipRecaptcha config) event).
Proof.
  intros Hnone. split.
  - pose proof (handler_run env config event) as Hrun.
    remember (createSendMailHandler env config event) as run eqn:Erun.
    destruct Hrun; simpl; repeat constructor;
      match goal with
      | H : captcha_stage _ _ _ = _ |- _ =>
          pose proof (proj2 (captcha_stage_no_secret env config props Hnone)) as Hq;
          rewrite H in Hq; simpl in Hq
      end;
      try exact Hq; apply Forall_app; split; try exact Hq; repeat constructor.
  - rewrite !result_handler. unfold handle. rewrite !result_bind.
    destruct (result (extract_body env event)) as [body | e | e];
      try reflexivity.
    destruct (valid (validate env body)) eqn:Hvalid.
    + destruct (valid_is_object env body Hvalid) as [props ->].
      rewrite !(process_valid env _ props Hvalid), !result_bind.
      rewrite (proj1 (captcha_stage_no_secret env config props Hnone)).
      reflexivity.
    + unfold process. rewrite Hvalid. reflexivity.
Qed.

Lemma no_secret_is_no_verification_witness :
  let env := Sample.world (ResponseText Sample.success_false) None in
  let config :=
    {| region := None; skipRecaptcha := None; disableSend := None;
       senderEmail := "no-reply@example.com";
       recipientEmail := "hello@example.com";
       recaptchaSecret := None |} in
  let event := Sample.json_event (Some (Sample.json_text Sample.jane)) in
  Forall (fun ev => is_HttpsRequest ev = false)
         (trace (createSendMailHandler env config event)) /\
  result (createSendMailHandler env config event) =
    result (createSendMailHandler env (with_skipRecaptcha config) event).
Proof.
  intros env config event.
  apply (no_secret_is_no_verification env config event). reflexivity.
Defined.

(** X16: what the endpoint's decoded answer does to a validated request
    when a secret is configured and verification is on.  The literal [null]
    has no [success] to read: the verifier rejects and the answer is the
    500 of the [catch].  Any other value whose [success] is falsy or missing
    (an object without it, a number, a string, an array) gives the 400
    [reCAPTCHA failed] after the one request; any truthy [success], boolean
    or not, passes the captcha stage. *)
Theorem verification_answer_decides env config event props c s data json :
  flag (skipRecaptcha config) = false ->
  recaptchaSecret config = Some (String c s) ->
  result (extract_body env event) = Ret (JObj props) ->
  valid (validate env (JObj props)) = true ->
  https_request env recaptcha_host recaptcha_path
    (recaptcha_postData env (String c s) props) = ResponseText data ->
  JSON_parse env data = inr json ->
  (json = JNull ->
   exists e,
     err_name e = "TypeError" /\
     result (createSendMailHandler env config event) =
       Ret (buildErrorResponse e generic_message (Some 500))) /\
  (is_nullish json = false ->
   truthy (prop_of json "success") = false ->
   createSendMailHandler env config event =
     (Ret (buildErrorResponse (new_Error "Invalid reCAPTCHA")
             "reCAPTCHA failed" (Some 400)),
      [HttpsRequest recaptcha_host recaptcha_path
         (recaptcha_postData env (String c s) props)])) /\
  (is_nullish json = false ->
   truthy (prop_of json "success") = true ->
   recaptcha_passes env config props).
Proof.
  intros Hskip Hsecret Hbody Hvalid Hanswer Hparse.
  assert (Hverify :
            verifyRecaptchaToken env (get_own props "recaptcha")
              (Some (String c s)) =
              let* _ := emit (HttpsRequest recaptcha_host recaptcha_path
                                (recaptcha_postData env (String c s) props)) in
              get_prop json "success").
  { unfold verifyRecaptchaToken. cbv zeta.
    change (https_request env _ _ _)
      with (https_request env recaptcha_host recaptcha_path
              (recaptcha_postData env (String c s) props)).
    rewrite Hanswer, Hparse. unfold of_sum. rewrite bind_ret_l. reflexivity. }
  pose proof (handle_extracted env config event _ Hbody) as Hh.
  rewrite (process_verifying env config props c s Hskip Hsecret Hvalid) in Hh.
  rewrite Hverify in Hh.
  split; [| split].
  - intros ->. eexists. split; [| rewrite result_handler, Hh; reflexivity].
    reflexivity.
  - intros Hdef Hfalsy. rewrite (get_prop_defined _ _ Hdef) in Hh.
    unfold createSendMailHandler. rewrite Hh. simpl. rewrite Hfalsy. reflexivity.
  - intros Hdef Htruthy. right. exists (prop_of json "success").
    rewrite Hsecret, Hverify, (get_prop_defined _ _ Hdef).
    split; [reflexivity | exact Htruthy].
Qed.

Lemma verification_answer_decides_witness :
  let event := Sample.json_event (Some (Sample.json_text Sample.jane)) in
  let run text :=
    createSendMailHandler (Cases.world (ResponseText text) None)
      Sample.live_config event in
  (exists e, err_name e = "TypeError" /\
             result (run "null") =
               Ret (buildErrorResponse e generic_message (Some 500))) /\
  run "1" =
    (Ret (buildErrorResponse (new_Error "Invalid reCAPTCHA")
            "reCAPTCHA failed" (Some 400)),
     [HttpsRequest recaptcha_host recaptcha_path "secret=secret&response=tok"]).
Proof.
  intros event run.
  pose (props := props_of (Sample.as_object Sample.jane)).
  split.
  - refine (proj1 (verification_answer_decides
                     (Cases.world (ResponseText "null") None) Sample.live_config
                     event props "s" "ecret" "null" JNull _ _ _ _ _ _) eq_refl);
      vm_compute; reflexivity.
  - refine (proj1 (proj2 (verification_answer_decides
                     (Cases.world (ResponseText "1") None) Sample.live_config
                     event props "s" "ecret" "1" (JNum 1) _ _ _ _ _ _))
              eq_refl eq_refl);
      vm_compute; reflexivity.
Defined.

(** ** What the JSON route reads *)

(** X17: on the JSON route the handler reads nothing of the event but
    the body text, with a missing body read as the empty text: two events
    routed to [JSON.parse] with the same text run alike whatever their
    other headers and their [isBase64Encoded] flag.  A body that is marked
    as base64 is parsed as it is, not decoded. *)
Theorem json_route_reads_body_only env config e1 e2 :
  is_multipart (contentType_of e1) = false ->
  is_multipart (contentType_of e2) = false ->
  with_default EmptyString (ev_body e1) = with_default EmptyString (ev_body e2) ->
  createSendMailHandler env config e1 = createSendMailHandler env config e2.
Proof.
  intros H1 H2 Hbody. unfold createSendMailHandler, handle, extract_body.
  rewrite H1, H2, Hbody. reflexivity.
Qed.

Lemma json_route_reads_body_only_witness :
  let env := Sample.world (ResponseText Sample.success_true) None in
  let text := Sample.json_text Sample.jane in
  createSendMailHandler env Sample.live_config
    (mkEvent ∅ (Some text) true) =
  createSendMailHandler env Sample.live_config
    (mkEvent {[ "Content-Type" := "application/json" ]} (Some text) false).
Proof.
  intros env text.
  apply (json_route_reads_body_only env Sample.live_config); reflexivity.
Defined.

(** ** The events of the test suite *)

(** X18: with the configuration of the tests ([skipRecaptcha] and
    [disableSend] on), the event [buildEvent] makes of a record of strings
    without a [files] property is answered by validation alone: 200 with
    the success message when the record is valid, and otherwise the 400 of
    the first violation; never a 500, and no request or mail goes out. *)
Theorem test_events_answered_by_validation env config fields :
  flag (skipRecaptcha config) = true ->
  flag (disableSend config) = true ->
  JSON_parse env (JSON_stringify_record fields) = inr (record_value fields) ->
  prop_of (record_value fields) "files" = JUndefined ->
  createSendMailHandler env config (buildEvent fields) =
    if valid (validate env (record_value fields))
    then (Ret (buildSuccessResponse "Mail sent successfully" None),
          [ConsoleWarn send_disabled_warning])
    else (Ret (invalid_response env (record_value fields)), []).
Proof.
  intros Hskip Hoff Hparse Hfiles.
  assert (Hbody : result (extract_body env (buildEvent fields)) =
                  Ret (record_value fields)).
  { unfold extract_body. simpl. rewrite Hparse. reflexivity. }
  unfold createSendMailHandler.
  rewrite (handle_extracted env config _ _ Hbody).
  destruct (valid (validate env (record_value fields))) eqn:Hvalid.
  - unfold record_value in *. rewrite (process_valid env config _ Hvalid).
    unfold captcha_stage. rewrite Hskip, bind_ret_l.
    rewrite (dispatch_disabled env config _ Hoff); [reflexivity |].
    unfold files_well_formed. simpl in Hfiles. rewrite Hfiles. reflexivity.
  - unfold process. rewrite Hvalid. reflexivity.
Qed.

Lemma test_events_answered_by_validation_witness :
  let env := Sample.world (ResponseText Sample.success_false) None in
  createSendMailHandler env Sample.test_config (buildEvent Sample.jane) =
    (Ret (buildSuccessResponse "Mail sent successfully" None),
     [ConsoleWarn send_disabled_warning]) /\
  status_of (createSendMailHandler env Sample.test_config
               (buildEvent Sample.anonymous)) = Some 400.
Proof.
  intros env. split.
  - refine (test_events_answered_by_validation env Sample.test_config
              Sample.jane _ _ _ _); reflexivity.
  - unfold status_of.
    rewrite (test_events_answered_by_validation env Sample.test_config
               Sample.anonymous eq_refl eq_refl eq_refl eq_refl).
    reflexivity.
Defined.

(** ** From the form to the transport *)

Lemma attachments_of_records parts :
  map attachment (file_records parts) = uploads parts.
Proof.
  induction parts as [| [n v | info chunks] parts IH]; simpl;
    [reflexivity | exact IH | rewrite IH; reflexivity].
Qed.

Lemma file_records_well_formed parts :
  forallb (fun file => negb (is_nullish file)) (file_records parts) = true.
Proof.
  induction parts as [| [n v | info chunks] parts IH]; simpl; auto.
Qed.

(** X19: uploads reach the transport unchanged.  When the parser closes
    on a form without a plain field called [files], the extracted payload
    is valid and passes the captcha stage, and sending is enabled, the
    handler calls the transport once, and the attachments of that mail are
    the files of the form, in order: for each the [filename] the parser
    reported and the concatenation of its chunks, and nothing else. *)
Theorem uploads_reach_transport env config event parts props :
  is_multipart (contentType_of event) = true ->
  busboy env (contentType_of event) (written_of event) = (parts, Close) ->
  forallb (fun part => negb (is_files_field part)) parts = true ->
  extractMultipart env event = ret (JObj props) ->
  valid (validate env (JObj props)) = true ->
  recaptcha_passes env config props ->
  flag (disableSend config) = false ->
  exists mail,
    List.filter is_SendMail (trace (createSendMailHandler env config event)) =
      [SendMail (ses_region config) mail] /\
    attachments mail = Some (uploads parts).
Proof.
  intros Hroute Hparse Hparts Hx Hvalid Hpass Hon.
  destruct (extractMultipart_files_array env event parts (written_of event)
              eq_refl Hparse Hparts) as (props' & Hx' & Hfiles).
  rewrite Hx in Hx'. injection Hx' as <-.
  assert (Hwf : files_well_formed props = true).
  { unfold files_well_formed. rewrite Hfiles. apply file_records_well_formed. }
  assert (Hbody : result (extract_body env event) = Ret (JObj props)).
  { unfold extract_body. rewrite Hroute, Hx. reflexivity. }
  destruct (run_with_sending env config event props Hon Hbody
              (conj Hvalid (conj Hwf Hpass))) as (mail & Hmail & Hsent & _).
  exists mail. split; [exact Hsent |].
  rewrite (build_mailOptions_well_formed config props Hwf) in Hmail.
  injection Hmail as <-. simpl. rewrite Hfiles. simpl.
  rewrite attachments_of_records. reflexivity.
Qed.

Lemma uploads_reach_transport_witness :
  let env := Sample.world (ResponseText Sample.success_true) None in
  let event := Sample.form_event "content-type" Sample.jane [Sample.x_txt] in
  exists mail,
    List.filter is_SendMail
      (trace (createSendMailHandler env Sample.live_config event)) =
      [SendMail "us-west-2" mail] /\
    attachments mail =
      Some [JObj [("filename", JStr "x.txt");
                  ("content", JBuffer (list_byte_of_string "hello"))]].
Proof.
  intros env event.
  refine (uploads_reach_transport env Sample.live_config event
            (Sample.parts_of Sample.jane [Sample.x_txt]) _ _ _ _ _ _ _ _);
    try (vm_compute; reflexivity).
  right. exists (JBool true). split; vm_compute; reflexivity.
Defined.
